(** * Quokko: the type checker and the code generator of the small Lisp

    A shallow embedding of [examples/lisp/type_system/type_checker.py] and
    [examples/lisp/compiler.py].  For the type checker, the Python tuples
    [(True, t)] and [(False, m)] become the constructors [Ok] and [Fail],
    an exception becomes [Raise] and a call that ends without [return] is
    [ReturnsNone]; for the code generator, a returned
    text is [Val] and an exception is [Exc].  Strings are Rocq strings
    (byte sequences). *)

From Stdlib Require Import ZArith Ascii String List Lia Bool.
From stdpp Require Import base decidable option list gmap strings pretty.

Open Scope string_scope.
Set Warnings "-register-all".

(** ** Characters and strings as Python uses them *)

Definition dquote_char : ascii := ascii_of_nat 34.
Definition dquote : string := String dquote_char EmptyString.

(** [s.startswith(p)] and [s.endswith(p)]. *)
Definition startswith (s p : string) : bool := String.prefix p s.

Definition endswith (s p : string) : bool :=
  (String.length p <=? String.length s)%nat
  && String.eqb (String.substring (String.length s - String.length p)
                                  (String.length p) s) p.

(** [sep.join(parts)]. *)
Definition join (sep : string) (parts : list string) : string :=
  String.concat sep parts.

(** [' ' * n] for a Python integer [n]: empty when [n] is not positive. *)
Fixpoint spaces_nat (n : nat) : string :=
  match n with
  | O => ""
  | S k => " " ++ spaces_nat k
  end.

Definition spaces (n : Z) : string := spaces_nat (Z.to_nat n).

(** ** The syntax tree: [Atom] and [Form] (constructs.py)

    An atom carries a Python value.  The code only asks whether it is a
    [str], an [int] or a [float] and formats it, so a float and a value of
    any other class are kept as the text [str()] gives for them.  [bool] is
    a subclass of [int] in Python. *)

Inductive value : Type :=
| VStr (s : string)
| VInt (n : Z)
| VBool (b : bool)
| VFloat (shown : string)
| VOther (shown : string).

Inductive obj : Type :=
| Atom (v : value)
| Form (elements : list obj).

#[global] Instance value_eq_dec : EqDecision value.
Proof. solve_decision. Defined.

(** [f"{value}"]. *)
Definition format_value (v : value) : string :=
  match v with
  | VStr s => s
  | VInt n => pretty n
  | VBool true => "True"
  | VBool false => "False"
  | VFloat shown => shown
  | VOther shown => shown
  end.

Definition isinstance_str (v : value) : bool :=
  match v with VStr _ => true | _ => false end.

(** ** The type descriptors (type_system/types.py) *)

Module PrimitiveType.
Inductive t : Type := String | Bool | Number.
End PrimitiveType.

Inductive ty : Type :=
| Primitive (p : PrimitiveType.t)
| UnrecognizedType
| EmptyList
| ListType (element : ty)
| PossibleEmptyList (element : ty).

#[global] Instance primitive_eq_dec : EqDecision PrimitiveType.t.
Proof. solve_decision. Defined.

#[global] Instance ty_eq_dec : EqDecision ty.
Proof. solve_decision. Defined.

Abbreviation TString := (Primitive PrimitiveType.String).
Abbreviation TBool := (Primitive PrimitiveType.Bool).
Abbreviation TNumber := (Primitive PrimitiveType.Number).

Definition is_empty_list (t : ty) : bool :=
  match t with EmptyList => true | _ => false end.

Definition is_list (t : ty) : bool :=
  match t with ListType _ => true | _ => false end.

Definition is_possibly_empty (t2 : ty) : bool :=
  match t2 with PossibleEmptyList _ => true | _ => false end.

(** The [element] attribute; only the two list types have it. *)
Definition element_of (t : ty) : option ty :=
  match t with
  | ListType e => Some e
  | PossibleEmptyList e => Some e
  | _ => None
  end.

Fixpoint ty_depth (t : ty) : nat :=
  match t with
  | ListType e => S (ty_depth e)
  | PossibleEmptyList e => S (ty_depth e)
  | _ => O
  end.

(** ** Functions and what the two modules import from files that are not
    part of the sources at hand *)

Record Function : Type := mkFunction {
  name : string;
  args : list string;
  body : list obj
}.

(** Python exceptions that the modelled code can raise. *)
Inductive exn : Type :=
| SyntaxError (msg : string)
| TypeError (msg : string)
| IndexError
| AttributeError.

Inductive res (A : Type) : Type :=
| Val (a : A)
| Exc (e : exn).
Arguments Val {A} a.
Arguments Exc {A} e.

(** The helpers of constructs.py and types.py whose bodies are not under
    the sources.  The development is parametric in them. *)
Class Externals : Type := {
  (** [t.name()]: the canonical name of a type descriptor. *)
  type_name : ty -> string;
  (** [f"{obj}"] for an [Atom] or a [Form]. *)
  obj_str : obj -> string;
  (** [is_function_def(obj)] and [is_import(obj)]. *)
  is_function_def : obj -> bool;
  is_import : obj -> bool;
  (** [to_function(form)]. *)
  to_function : obj -> res Function;
  (** The nodes of the parser's tree and [to_object(child)]. *)
  ast_node : Type;
  to_object : ast_node -> obj
}.

(** Modelled from the spec: [builtin_functions()] of constructs.py is
    missing; the spec lists the fixed, closed set of reserved names. *)
Definition builtin_functions : list string :=
  [ "import"; "print"; "+"; "-"; "*"; "/"; "not"; "and"; "or";
    "<"; ">"; "<="; ">="; "="; "list"; "first"; "rest"; "++";
    "map"; "filter"; "lambda"; "if" ].

(** [name in builtin_functions()]; only a [str] can be in the table. *)
Definition in_builtins (name : value) : bool :=
  match name with
  | VStr s => bool_decide (s ∈ builtin_functions)
  | _ => false
  end.

(** ** Python's [float(s)] and [int(s)] on a string: does the call return?

    A model of the two builtins on ASCII text: surrounding white space
    (bytes 9 to 13 and 32) is dropped, an underscore may stand between
    two digits, then the text is an optionally signed [inf], [infinity],
    [nan] (any case) or decimal number with optional fraction and
    exponent; for [int], an optionally signed run of digits.  On text
    with characters outside ASCII the builtins read more than the model
    does; the statements that depend on the model assume [is_ascii]. *)

Definition is_ascii (s : string) : bool :=
  forallb (fun c => (nat_of_ascii c <? 128)%nat) (list_ascii_of_string s).

Definition is_space (c : ascii) : bool :=
  let n := nat_of_ascii c in
  ((9 <=? n) && (n <=? 13) || (n =? 32))%nat.

Definition is_digit (c : ascii) : bool :=
  let n := nat_of_ascii c in ((48 <=? n) && (n <=? 57))%nat.

Definition is_underscore (c : ascii) : bool := Ascii.eqb c "_"%char.

Definition is_sign (c : ascii) : bool :=
  Ascii.eqb c "+"%char || Ascii.eqb c "-"%char.

Definition lower (c : ascii) : ascii :=
  let n := nat_of_ascii c in
  if ((65 <=? n) && (n <=? 90))%nat then ascii_of_nat (n + 32) else c.

Fixpoint lstrip (s : list ascii) : list ascii :=
  match s with
  | c :: r => if is_space c then lstrip r else s
  | [] => []
  end.

Definition strip (s : list ascii) : list ascii :=
  rev (lstrip (rev (lstrip s))).

(** Underscores are accepted only between two digits and are removed. *)
Fixpoint drop_underscores (prev : option ascii) (s : list ascii)
  : option (list ascii) :=
  match s with
  | [] =>
      match prev with
      | Some p => if is_underscore p then None else Some []
      | None => Some []
      end
  | c :: r =>
      if is_underscore c then
        match prev with
        | Some p => if is_digit p then drop_underscores (Some c) r else None
        | None => None
        end
      else
        match prev with
        | Some p =>
            if is_underscore p && negb (is_digit c) then None
            else option_map (cons c) (drop_underscores (Some c) r)
        | None => option_map (cons c) (drop_underscores (Some c) r)
        end
  end.

Definition skip_sign (s : list ascii) : list ascii :=
  match s with
  | c :: r => if is_sign c then r else s
  | [] => []
  end.

(** The number of leading digits and what follows them. *)
Fixpoint span_digits (s : list ascii) : nat * list ascii :=
  match s with
  | c :: r =>
      if is_digit c then let '(n, rest) := span_digits r in (S n, rest)
      else (O, s)
  | [] => (O, [])
  end.

Definition is_inf_or_nan (s : list ascii) : bool :=
  let w := string_of_list_ascii (map lower s) in
  String.eqb w "inf" || String.eqb w "infinity" || String.eqb w "nan".

Definition is_exponent (s : list ascii) : bool :=
  match s with
  | [] => true
  | c :: r =>
      (Ascii.eqb c "e"%char || Ascii.eqb c "E"%char)
      && let '(n, rest) := span_digits (skip_sign r) in
         (0 <? n)%nat && match rest with [] => true | _ => false end
  end.

Definition is_decimal_float (s : list ascii) : bool :=
  let '(n1, r1) := span_digits s in
  let '(n2, r2) :=
    match r1 with
    | c :: r => if Ascii.eqb c "."%char then span_digits r else (O, r1)
    | [] => (O, r1)
    end in
  (0 <? n1 + n2)%nat && is_exponent r2.

Definition float_parses (s : string) : bool :=
  match drop_underscores None (strip (list_ascii_of_string s)) with
  | None => false
  | Some t => let u := skip_sign t in is_inf_or_nan u || is_decimal_float u
  end.

Definition int_parses (s : string) : bool :=
  match drop_underscores None (skip_sign (strip (list_ascii_of_string s))) with
  | None => false
  | Some t =>
      let '(n, rest) := span_digits t in
      (0 <? n)%nat && match rest with [] => true | _ => false end
  end.

(** * The type checker (type_checker.py) *)

Definition is_string_literal (s : string) : bool :=
  String.eqb s (dquote ++ dquote) || (startswith s dquote && endswith s dquote).

Definition is_bool_literal (s : string) : bool :=
  String.eqb s "true" || String.eqb s "false".

Definition is_numeric_literal (v : value) : bool :=
  match v with
  | VInt _ | VBool _ | VFloat _ => true
  | _ => false
  end.

(** What [infer_element_types] returns: [(True, t)] or [(False, msg)]. *)
Inductive unified : Type :=
| Unified (t : ty)
| Incompatible (msg : string).

(** The second component of a failed [infer_type]: a message or, on one
    path, a type object. *)
Inductive payload : Type :=
| PMsg (msg : string)
| PType (t : ty).

(** What [infer_type] does: it returns [(True, t)] or [(False, p)], it
    raises an exception, or it reaches the end of its body and returns
    [None]. *)
Inductive outcome : Type :=
| Ok (t : ty)
| Fail (p : payload)
| Raise (e : exn)
| ReturnsNone.

(** The text of the [TypeError] of [result, t = infer_type(...)] when the
    call returned [None]. *)
Definition unpack_none : string :=
  "cannot unpack non-iterable NoneType object".

Section TypeChecker.
Context `{Externals}.

Definition incompatible_list_types (t1 t2 : ty) : string :=
  "Incompatible list types '" ++ type_name t1 ++ "', '" ++ type_name t2 ++ "'".

(** The local function [inner] of [infer_element_types]; [rec] is the
    enclosing function, which [inner] calls on the element types. *)
Definition inner (rec : ty -> ty -> unified) (t1 t2 : ty) : unified :=
  match t1, t2 with
  | ListType e1, ListType e2 =>
      match rec e1 e2 with
      | Incompatible _ => Incompatible (incompatible_list_types t1 t2)
      | Unified element_type => Unified (ListType element_type)
      end
  | ListType e1, EmptyList => Unified (PossibleEmptyList e1)
  | ListType e1, PossibleEmptyList e2 =>
      match rec e1 e2 with
      | Incompatible _ => Incompatible (incompatible_list_types t1 t2)
      | Unified element_type => Unified (PossibleEmptyList e1)
      end
  | _, _ => Incompatible ""
  end.

(** The body of [infer_element_types] after the definition of [inner]. *)
Definition infer_element_types_body (rec : ty -> ty -> unified)
    (list1 list2 : ty) : unified :=
  match inner rec list2 list1 with
  | Unified list_type => Unified list_type
  | Incompatible _ =>
      match inner rec list1 list2 with
      | Unified list_type => Unified list_type
      | Incompatible _ =>
          if decide (list1 = list2) then Unified list1
          else Incompatible (incompatible_list_types list1 list2)
      end
  end.

(** The recursion goes from two types to their elements, swapping them
    on the way, so it is not structural in one argument; it is unrolled
    [fuel] times.  [infer_element_types_unfold] below shows that the
    amount given is enough: the function satisfies the source's
    recursive equation. *)
Fixpoint infer_element_types_fuel (fuel : nat) : ty -> ty -> unified :=
  match fuel with
  | O => fun _ _ => Incompatible ""
  | S n => infer_element_types_body (infer_element_types_fuel n)
  end.

Definition infer_element_types (list1 list2 : ty) : unified :=
  infer_element_types_fuel (S (ty_depth list1 + ty_depth list2)) list1 list2.

(** [infer_type] for an [Atom]. *)
Definition infer_atom (v : value) (namespace : gmap string ty) : outcome :=
  match v with
  | VStr s =>
      if is_string_literal s then Ok TString
      else if is_bool_literal s then Ok TBool
      else match namespace !! s with
           | Some t => Ok t
           | None =>
               if float_parses s then Ok TNumber
               else if int_parses s then Ok TNumber
               else Fail (PMsg ("Cannot infer type of '" ++ s ++ "'"))
           end
  | _ =>
      if is_numeric_literal v then Ok TNumber
      else Fail (PType UnrecognizedType)
  end.

(** [name in namespace] and [namespace[name]]: the keys are strings. *)
Definition namespace_get (namespace : gmap string ty) (name : value)
  : option ty :=
  match name with
  | VStr s => namespace !! s
  | _ => None
  end.

Definition list_element_message (i : nat) (i_type element_type : ty) : string :=
  "List " ++ pretty (i - 1)%nat ++ "-th element has type '" ++ type_name i_type
  ++ "' which is not compatible with inferred type '"
  ++ type_name element_type ++ "'".

(** The loop [for i in range(2, len(elements))] of the [list] case;
    [rest] holds [elements[i:]]. *)
Fixpoint list_loop (rec : obj -> outcome) (i : nat) (rest : list obj)
    (element_type : ty) : outcome :=
  match rest with
  | [] => Ok (ListType element_type)
  | e :: rest' =>
      match rec e with
      | Ok i_type =>
          match infer_element_types (ListType element_type) (ListType i_type) with
          | Incompatible _ =>
              Fail (PMsg (list_element_message i i_type element_type))
          | Unified resulting_list_type =>
              match element_of resulting_list_type with
              | Some el => list_loop rec (S i) rest' el
              | None => Raise AttributeError
              end
          end
      | Fail p => Fail p
      | Raise e => Raise e
      | ReturnsNone => Raise (TypeError unpack_none)
      end
  end.

Definition maybe_empty_predicate (t1 t2 : ty) : bool :=
  is_list t1 && (is_empty_list t2 || is_possibly_empty t2).

(** The builtin cases of [infer_type] on a [Form]; [tl] is
    [elements[1:]], so that [elements[1]] is its head, and [rec] is
    [infer_type] at the same namespace.  An index past the end raises
    [IndexError] when the code reaches it. *)
Definition infer_builtin (rec : obj -> outcome) (name : string)
    (tl : list obj) : outcome :=
  let unrecognized :=
    Fail (PMsg ("Unrecognized form '" ++ name ++ "', cannot infer type")) in
  if String.eqb name "list" then
    match tl with
    | [] => Ok EmptyList
    | e1 :: rest =>
        match rec e1 with
        | Ok element_type => list_loop rec 2 rest element_type
        | Fail p => Fail p
        | Raise e => Raise e
        | ReturnsNone => Raise (TypeError unpack_none)
        end
    end
  else if String.eqb name "++" then
    match tl with
    | [] => Raise IndexError
    | e1 :: tl2 =>
        match rec e1 with
        | Raise x => Raise x
        | ReturnsNone => Raise (TypeError unpack_none)
        | r1 =>
            match tl2 with
            | [] => Raise IndexError
            | e2 :: _ =>
                match rec e2 with
                | Raise x => Raise x
                | ReturnsNone => Raise (TypeError unpack_none)
                | r2 =>
                    match r1 with
                    | Ok element_type =>
                        match r2 with
                        | Ok list_type =>
                            let cannot_append :=
                              Fail (PMsg ("Cannot append element of type '"
                                          ++ type_name element_type ++ "' to '"
                                          ++ type_name list_type ++ "'")) in
                            if is_empty_list list_type then
                              Ok (ListType element_type)
                            else if is_list list_type || is_possibly_empty list_type then
                              match infer_element_types (ListType element_type) list_type with
                              | Unified resulting_list_type => Ok resulting_list_type
                              | Incompatible _ => cannot_append
                              end
                            else cannot_append
                        | not_ok => not_ok
                        end
                    | not_ok => not_ok
                    end
                end
            end
        end
    end
  else if String.eqb name "first" then
    match tl with
    | [] => Raise IndexError
    | e1 :: _ =>
        match rec e1 with
        | Ok list_type =>
            match list_type with
            | ListType e => Ok e
            | _ => Fail (PMsg ("'first' expected a non-empty List type but got '"
                               ++ type_name list_type ++ "'"))
            end
        | Fail p => Fail p
        | Raise e => Raise e
        | ReturnsNone => Raise (TypeError unpack_none)
        end
    end
  else if String.eqb name "rest" then
    match tl with
    | [] => Raise IndexError
    | e1 :: _ =>
        match rec e1 with
        | Ok list_type =>
            match list_type with
            | ListType e => Ok (PossibleEmptyList e)
            | _ => Fail (PMsg ("'rest' expected a non-empty List type but got '"
                               ++ type_name list_type ++ "'"))
            end
        | Fail p => Fail p
        | Raise e => Raise e
        | ReturnsNone => Raise (TypeError unpack_none)
        end
    end
  else if String.eqb name "if" then
    match tl with
    | [] => Raise IndexError
    | c :: tl2 =>
        match rec c with
        | Ok condition_type =>
            if negb (bool_decide (condition_type = TBool)) then
              Fail (PMsg ("Expected if condition to have type 'bool' but got '"
                          ++ type_name condition_type ++ "'"))
            else
              match tl2 with
              | [] => Raise IndexError
              | t :: tl3 =>
                  match rec t with
                  | Ok true_branch_type =>
                      match tl3 with
                      | [] => Raise IndexError
                      | e :: _ =>
                          match rec e with
                          | Ok false_branch_type =>
                              if negb (bool_decide (true_branch_type = false_branch_type)) then
                                let possible_empty_list :=
                                  maybe_empty_predicate true_branch_type false_branch_type
                                  || maybe_empty_predicate false_branch_type true_branch_type in
                                if possible_empty_list then
                                  match element_of (if is_list true_branch_type
                                                    then true_branch_type
                                                    else false_branch_type) with
                                  | Some el => Ok (PossibleEmptyList el)
                                  | None => Raise AttributeError
                                  end
                                else
                                  Fail (PMsg ("Incompatible types in if branches: '"
                                              ++ type_name true_branch_type ++ "' and '"
                                              ++ type_name false_branch_type ++ "'"))
                              else Ok true_branch_type
                          | Fail p => Fail p
                          | Raise x => Raise x
                          | ReturnsNone => Raise (TypeError unpack_none)
                          end
                      end
                  | Fail p => Fail p
                  | Raise x => Raise x
                  | ReturnsNone => Raise (TypeError unpack_none)
                  end
              end
        | Fail p => Fail p
        | Raise x => Raise x
        | ReturnsNone => Raise (TypeError unpack_none)
        end
    end
  else unrecognized.

(** [infer_type] on a [Form].  The final [return] stands inside the
    [if isinstance(first_element, Atom)] block: when the first element is
    not an [Atom] the body ends without a [return] and the call gives
    [None]. *)
Definition infer_form (rec : obj -> outcome) (namespace : gmap string ty)
    (elements : list obj) : outcome :=
  match elements with
  | [] => Raise IndexError
  | first_element :: tl =>
      match first_element with
      | Atom name =>
          match namespace_get namespace name with
          | Some t => Ok t
          | None =>
              match name with
              | VStr s =>
                  if in_builtins name then infer_builtin rec s tl
                  else Fail (PMsg ("Unrecognized form '" ++ s
                                   ++ "', cannot infer type"))
              | _ => Fail (PMsg ("Unrecognized form '" ++ format_value name
                                 ++ "', cannot infer type"))
              end
          end
      | Form _ => ReturnsNone
      end
  end.

Fixpoint infer_type (o : obj) (namespace : gmap string ty) {struct o}
  : outcome :=
  match o with
  | Atom v => infer_atom v namespace
  | Form elements =>
      infer_form (fun e => infer_type e namespace) namespace elements
  end.

End TypeChecker.

(** * The code generator (compiler.py) *)

Definition newline : string := String (ascii_of_nat 10) EmptyString.

Section Compiler.
Context `{Externals}.

(** [compile_obj] on an [Atom]. *)
Definition compile_atom (v : value) (indent : Z) : string :=
  let current_indent := spaces (indent * 4) in
  let value :=
    match v with
    | VStr s =>
        if String.eqb s "true" then "True"
        else if String.eqb s "false" then "False"
        else s
    | _ => format_value v
    end in
  current_indent ++ value.

(** [[compile_obj(element) for element in elements]], left to right. *)
Fixpoint compile_each (rec : obj -> res string) (elements : list obj)
  : res (list string) :=
  match elements with
  | [] => Val []
  | e :: rest =>
      match rec e with
      | Exc x => Exc x
      | Val s =>
          match compile_each rec rest with
          | Exc x => Exc x
          | Val ss => Val (s :: ss)
          end
      end
  end.

Definition create_body (rec : obj -> res string) (delim : string)
    (elements : list obj) : res string :=
  match compile_each rec elements with
  | Exc x => Exc x
  | Val parts => Val (join delim parts)
  end.

(** The local [create_op] of [compile_builtin]. *)
Definition create_op (rec : obj -> res string) (op : string)
    (tl : list obj) (n_args : nat) : res string :=
  let args := length tl in
  if negb (Nat.eqb args n_args) then
    Exc (TypeError ("'" ++ op ++ "' takes " ++ pretty n_args
                    ++ " arguments but " ++ pretty args ++ " were given!"))
  else create_body rec (" " ++ op ++ " ") tl.

Definition wrap (before : string) (r : res string) (after : string)
  : res string :=
  match r with
  | Exc x => Exc x
  | Val s => Val (before ++ s ++ after)
  end.

(** [compile_builtin(form)]; [tl] is [form.elements[1:]] (the default
    of [create_body]) and [rec e] is [compile_obj(e)] at indent 0. *)
Definition compile_builtin (rec : obj -> res string) (function_name : string)
    (tl : list obj) : res string :=
  let n_args := length tl in
  let called name := String.eqb function_name name in
  if called "import" then
    match tl with
    | [] => Exc IndexError
    | Atom v :: _ => Val ("import " ++ format_value v)
    | Form _ :: _ => Exc AttributeError
    end
  else if called "print" then wrap "print(" (create_body rec ", " tl) ")"
  else if called "+" then create_body rec " + " tl
  else if called "-" then create_body rec " - " tl
  else if called "*" then create_body rec " * " tl
  else if called "/" then create_body rec " / " tl
  else if called "not" then
    if negb (Nat.eqb n_args 1) then
      Exc (TypeError ("'not' takes 1 argument but " ++ pretty n_args
                      ++ " were given!"))
    else wrap " not " (create_body rec "" tl) ""
  else if called "and" || called "or" then
    create_body rec (" " ++ function_name ++ " ") tl
  else if called "<" || called ">" || called "<=" || called ">=" then
    create_op rec function_name tl 2
  else if called "=" then
    if negb (Nat.eqb n_args 2) then
      Exc (TypeError ("'=' takes 2 arguments but " ++ pretty n_args
                      ++ " were given!"))
    else create_body rec " == " tl
  else if called "list" then wrap "list_create(" (create_body rec ", " tl) ")"
  else if called "first" then
    if negb (Nat.eqb n_args 1) then
      Exc (TypeError ("'first' takes 1 argument but " ++ pretty n_args
                      ++ " were given!"))
    else wrap "" (create_body rec "" tl) "[0]"
  else if called "rest" then
    if negb (Nat.eqb n_args 1) then
      Exc (TypeError ("'rest' takes 1 argument but " ++ pretty n_args
                      ++ " were given!"))
    else wrap "" (create_body rec "" tl) "[1:]"
  else if called "++" then wrap "list_append(" (create_body rec ", " tl) ")"
  else if called "map" || called "filter" then
    if negb (Nat.eqb n_args 2) then
      Exc (TypeError ("'" ++ function_name ++ "' takes 2 arguments but "
                      ++ pretty n_args ++ " were given!"))
    else
      match tl with
      | e1 :: e2 :: _ =>
          match rec e1 with
          | Exc x => Exc x
          | Val func =>
              match rec e2 with
              | Exc x => Exc x
              | Val collection =>
                  Val ("list(" ++ function_name ++ "(" ++ func ++ ", "
                       ++ collection ++ "))")
              end
          end
      | _ => Exc IndexError
      end
  else if called "lambda" then
    match tl with
    | [] => Exc IndexError
    | e1 :: tl2 =>
        let args :=
          match e1 with
          | Atom _ => rec e1
          | Form args_elements => create_body rec ", " args_elements
          end in
        match args with
        | Exc x => Exc x
        | Val args =>
            match tl2 with
            | [] => Exc IndexError
            | e2 :: _ => wrap ("lambda " ++ args ++ ": ") (rec e2) ""
            end
        end
    end
  else if called "if" then
    if negb (Nat.eqb n_args 3) then
      Exc (TypeError ("if requires 3 arguments but " ++ pretty n_args
                      ++ " were given!"))
    else
      match tl with
      | e1 :: e2 :: e3 :: _ =>
          match rec e1 with
          | Exc x => Exc x
          | Val condition =>
              match rec e2 with
              | Exc x => Exc x
              | Val if_branch =>
                  match rec e3 with
                  | Exc x => Exc x
                  | Val else_branch =>
                      Val ("(" ++ if_branch ++ ") if (" ++ condition
                           ++ ") else (" ++ else_branch ++ ")")
                  end
              end
          end
      | _ => Exc IndexError
      end
  else Val "".

(** [compile_obj] on a [Form] with elements [elements]. *)
Definition compile_form (rec : obj -> res string) (elements : list obj)
    (indent : Z) : res string :=
  let current_indent := spaces (indent * 4) in
  match elements with
  | [] => Val ""
  | Form first :: _ =>
      Exc (SyntaxError ("Expected Atom as first element of Form, but got "
                        ++ obj_str (Form first)))
  | Atom form_name :: tl =>
      if in_builtins form_name then
        wrap current_indent (compile_builtin rec (format_value form_name) tl) ""
      else
        match compile_each rec tl with
        | Exc x => Exc x
        | Val parts =>
            Val (current_indent ++ format_value form_name
                 ++ "(" ++ join "," parts ++ ")")
        end
  end.

Fixpoint compile_obj (o : obj) (indent : Z) {struct o} : res string :=
  match o with
  | Atom v => Val (compile_atom v indent)
  | Form elements => compile_form (fun e => compile_obj e 0) elements indent
  end.

End Compiler.

(** * The program orchestrator (compiler.py) *)

(** A Python [dict] keeps its keys in the order of their first insertion;
    setting a key that is present replaces the value in place.  Keys are
    compared structurally. *)
Fixpoint dict_set {V : Type} (k : value) (v : V) (d : list (value * V))
  : list (value * V) :=
  match d with
  | [] => [(k, v)]
  | (k', v') :: rest =>
      if decide (k' = k) then (k, v) :: rest else (k', v') :: dict_set k v rest
  end.

Definition dict_has {V : Type} (k : value) (d : list (value * V)) : bool :=
  existsb (fun kv => bool_decide (fst kv = k)) d.

Section Orchestrator.
Context `{Externals}.

(** The list comprehension of [create_body] in [compile_function]:
    [i] is the index of the head of [rest], [n] is [len(function.body)]. *)
Fixpoint function_lines (add_return : bool) (indent : Z) (n : nat) (i : nat)
    (rest : list obj) : res (list string) :=
  match rest with
  | [] => Val []
  | o :: rest' =>
      let return_f :=
        if add_return && Z.eqb (Z.of_nat i) (Z.of_nat n - 1)
        then "return " else "" in
      let total_indent := spaces ((indent + 1) * 4) in
      match compile_obj o indent with
      | Exc x => Exc x
      | Val s =>
          match function_lines add_return indent n (S i) rest' with
          | Exc x => Exc x
          | Val ls => Val ((total_indent ++ return_f ++ s) :: ls)
          end
      end
  end.

(** [compile_function]; the call of [logger.error] for a redefined
    builtin writes to the log only and is left out. *)
Definition compile_function (function : Function) (indent : Z) : res string :=
  let create_body (add_return : bool) :=
    match function_lines add_return indent (length (body function)) 0
                         (body function) with
    | Exc x => Exc x
    | Val ls => Val (join newline ls)
    end in
  if String.eqb (name function) "main" then
    wrap ("if __name__ == '__main__':" ++ newline) (create_body false)
         (newline ++ newline)
  else
    wrap ("def " ++ name function ++ "(" ++ join ", " (args function) ++ "):"
          ++ newline) (create_body true) newline.

Fixpoint validate (objects : list obj) : bool * string :=
  match objects with
  | [] => (true, "")
  | o :: rest =>
      match o with
      | Atom _ =>
          (false, "Got unexpected object at root-level: " ++ obj_str o)
      | Form _ =>
          if negb (is_function_def o) && is_import o then
            (false, "Expected only function definitions and imports at root-level but got: "
                    ++ obj_str o)
          else validate rest
      end
  end.

(** The dict comprehension
    [{form.elements[1].value: to_function(form) for form in objects
      if is_function_def(form)}], added to [acc]. *)
Fixpoint local_functions (objects : list obj) (acc : list (value * Function))
  : res (list (value * Function)) :=
  match objects with
  | [] => Val acc
  | form :: rest =>
      if is_function_def form then
        match form with
        | Form (_ :: Atom key :: _) =>
            match to_function form with
            | Exc x => Exc x
            | Val f => local_functions rest (dict_set key f acc)
            end
        | Form (_ :: Form _ :: _) => Exc AttributeError
        | Form _ => Exc IndexError
        | Atom _ => Exc AttributeError
        end
      else local_functions rest acc
  end.

Fixpoint compile_functions (functions : list Function) : res string :=
  match functions with
  | [] => Val ""
  | f :: rest =>
      match compile_function f 0 with
      | Exc x => Exc x
      | Val s => wrap (s ++ newline) (compile_functions rest) ""
      end
  end.

Definition convert_to_output (is_repl : bool)
    (namespace : list (value * Function)) (objects : list obj) : res string :=
  match compile_functions (map snd namespace) with
  | Exc x => Exc x
  | Val functions =>
      let output := "from lisp_core import *" ++ newline ++ newline ++ functions in
      if is_repl then
        match compile_each (fun form => compile_obj form 0)
                (filter (fun form => negb (is_function_def form)) objects) with
        | Exc x => Exc x
        | Val forms => Val (output ++ join newline forms ++ newline ++ newline)
        end
      else Val output
  end.

(** [compile_program]; [children] is [ast.children] and [ext_funcs] the
    dictionary of external functions ([None] is the empty one). *)
Definition compile_program (children : list ast_node)
    (ext_funcs : list (value * Function)) (is_repl : bool)
  : res (bool * string * list (value * Function)) :=
  match children with
  | [] => Val (true, "", [])
  | _ =>
      let objects := map to_object children in
      let '(validation_result, validation_message) := validate objects in
      if negb validation_result then Val (false, validation_message, [])
      else
        match local_functions objects [] with
        | Exc x => Exc x
        | Val locals =>
            let namespace :=
              fold_left (fun d kv => dict_set (fst kv) (snd kv) d) locals ext_funcs in
            if negb is_repl && negb (dict_has (VStr "main") namespace) then
              Val (false, "Function 'main' is not defined!", [])
            else
              match convert_to_output is_repl namespace objects with
              | Exc x => Exc x
              | Val output => Val (true, output, namespace)
              end
        end
  end.

End Orchestrator.

(** * One concrete choice for the imported helpers

    Used to run the definitions on examples.  The general theorems hold
    for every choice. *)
Module Sample.

Fixpoint sample_type_name (t : ty) : string :=
  match t with
  | Primitive PrimitiveType.String => "String"
  | Primitive PrimitiveType.Bool => "Bool"
  | Primitive PrimitiveType.Number => "Number"
  | UnrecognizedType => "Unrecognized"
  | EmptyList => "EmptyList"
  | ListType e => "List[" ++ sample_type_name e ++ "]"
  | PossibleEmptyList e => "PossibleEmptyList[" ++ sample_type_name e ++ "]"
  end.

Fixpoint sample_obj_str (o : obj) : string :=
  match o with
  | Atom v => format_value v
  | Form elements => "(" ++ join " " (map sample_obj_str elements) ++ ")"
  end.

Definition head_is (keyword : string) (o : obj) : bool :=
  match o with
  | Form (Atom (VStr s) :: _) => String.eqb s keyword
  | _ => false
  end.

Definition atom_text (o : obj) : string :=
  match o with
  | Atom v => format_value v
  | Form _ => ""
  end.

Definition sample_to_function (o : obj) : res Function :=
  match o with
  | Form (_ :: Atom v :: Form params :: body) =>
      Val (mkFunction (format_value v) (map atom_text params) body)
  | _ => Exc IndexError
  end.

#[export] Instance sample_externals : Externals := {|
  type_name := sample_type_name;
  obj_str := sample_obj_str;
  is_function_def := head_is "fun";
  is_import := head_is "import";
  to_function := sample_to_function;
  ast_node := obj;
  to_object := fun o => o
|}.

End Sample.

(** * Vocabulary of the statements *)

Import Sample.

Definition atom (s : string) : obj := Atom (VStr s).

Definition no_bindings : gmap string ty := ∅.

(** A text delimited by double quotes: the lone quote, or a quote, any
    text and a quote. *)
Definition quoted (s : string) : Prop :=
  s = dquote \/ exists body, s = dquote ++ body ++ dquote.

(** One of the two boolean words. *)
Definition bool_word (s : string) : Prop := s = "true" \/ s = "false".

(** Two results agree when both are failures or both are the same type. *)
Definition same_verdict (u1 u2 : unified) : Prop :=
  match u1, u2 with
  | Unified a, Unified b => a = b
  | Incompatible _, Incompatible _ => True
  | _, _ => False
  end.

Section Vocabulary.
Context `{Externals}.

(** The element type that the [list] loop carries on after an argument of
    type [i_type], when the two are compatible. *)
Definition unify_element (element_type i_type : ty) : option ty :=
  match infer_element_types (ListType element_type) (ListType i_type) with
  | Unified resulting_list_type => element_of resulting_list_type
  | Incompatible _ => None
  end.

(** The element type after a run of compatible arguments. *)
Fixpoint accumulate (element_type : ty) (ts : list ty) : option ty :=
  match ts with
  | [] => Some element_type
  | t :: rest =>
      match unify_element element_type t with
      | Some el => accumulate el rest
      | None => None
      end
  end.

Definition incompatible (element_type i_type : ty) : Prop :=
  exists msg,
    infer_element_types (ListType element_type) (ListType i_type)
    = Incompatible msg.

End Vocabulary.

(** One of the three rules of [inner] applies to [t1] against [t2]. *)
Definition list_rule_applies (t1 t2 : ty) : bool :=
  is_list t1 && (is_list t2 || is_empty_list t2 || is_possibly_empty t2).

(** [t1] is [List(T)] and [t2] is [EmptyList] or some
    [PossibleEmptyList(U)]. *)
Definition list_with_maybe_empty (t1 t2 T : ty) : Prop :=
  t1 = ListType T /\ (t2 = EmptyList \/ exists U, t2 = PossibleEmptyList U).

(** The builtins whose argument count [compile_builtin] tests, with the
    count it asks for. *)
Definition checked_arity (op : string) : option nat :=
  if bool_decide (op ∈ ["not"; "first"; "rest"]) then Some 1
  else if bool_decide (op ∈ ["<"; ">"; "<="; ">="; "="; "map"; "filter"])
  then Some 2
  else if bool_decide (op = "if") then Some 3
  else None.

(** The text of the [TypeError] for [op] called with [given] arguments
    where [expected] are asked for. *)
Definition arity_error (op : string) (expected given : nat) : string :=
  if String.eqb op "if" then
    "if requires " ++ pretty expected ++ " arguments but " ++ pretty given
    ++ " were given!"
  else
    "'" ++ op ++ "' takes " ++ pretty expected
    ++ (if Nat.eqb expected 1 then " argument but " else " arguments but ")
    ++ pretty given ++ " were given!".

(** Modelled from the spec: the argument counts that the specification
    of the builtin emission table calls fixed ("exactly n arguments", "the
    single argument", "the two arguments"). *)
Definition spec_fixed_arity (op : string) : option nat :=
  if bool_decide (op ∈ ["not"; "first"; "rest"]) then Some 1
  else if bool_decide (op ∈ ["<"; ">"; "<="; ">="; "="; "++"; "map";
                             "filter"; "lambda"])
  then Some 2
  else if bool_decide (op = "if") then Some 3
  else None.

(** * Vocabulary of the further properties *)

(** The builtins for which [infer_type] has a case. *)
Definition typed_builtins : list string := ["list"; "++"; "first"; "rest"; "if"].

(** The builtins emitted as their operands joined by the operator, with
    no test of the number of operands. *)
Definition variadic_infix : list string := ["+"; "-"; "*"; "/"; "and"; "or"].

(** A result of [infer_type] that is a type or a message: no exception
    and no type object in the place of a message. *)
Definition type_or_message (r : outcome) : Prop :=
  match r with
  | Ok _ => True
  | Fail (PMsg _) => True
  | _ => False
  end.

Definition is_form (o : obj) : bool :=
  match o with
  | Form _ => true
  | Atom _ => false
  end.

(** What one pass of the loop of [validate] lets through. *)
Definition passes_validation `{Externals} (o : obj) : bool :=
  is_form o && negb (negb (is_function_def o) && is_import o).

(** [r] with [prefix] put before a returned text. *)
Definition prefixed (prefix : string) (r : res string) : res string :=
  match r with
  | Val s => Val (prefix ++ s)
  | Exc x => Exc x
  end.

(** The texts of a function body with [return] before the last one. *)
Fixpoint mark_last (parts : list string) : list string :=
  match parts with
  | [] => []
  | [s] => ["return " ++ s]
  | s :: rest => s :: mark_last rest
  end.

(** The lines of an emitted function body at the top level. *)
Definition body_lines (add_return : bool) (parts : list string) : list string :=
  map (fun s => "    " ++ s) (if add_return then mark_last parts else parts).

Definition prelude : string := "from lisp_core import *" ++ newline ++ newline.

(** [d.get(k)] on the ordered dictionary. *)
Fixpoint dict_get {V : Type} (k : value) (d : list (value * V)) : option V :=
  match d with
  | [] => None
  | (k', v) :: rest => if decide (k' = k) then Some v else dict_get k rest
  end.

(** No key occurs twice. *)
Fixpoint unique_keys {V : Type} (d : list (value * V)) : Prop :=
  match d with
  | [] => True
  | (k, _) :: rest => dict_get k rest = None /\ unique_keys rest
  end.

(** * Properties of list-type unification *)

Section UnificationFacts.
Context `{Externals}.

(** [inner] only calls [rec] on the elements of its two arguments. *)
Lemma inner_ext (rec rec' : ty -> ty -> unified) (t1 t2 : ty) :
  (forall a b, ty_depth a + ty_depth b < ty_depth t1 + ty_depth t2 ->
               rec a b = rec' a b) ->
  inner rec t1 t2 = inner rec' t1 t2.
Proof.
  intros Hrec.
  destruct t1 as [p| | |e1|e1]; try reflexivity.
  destruct t2 as [q| | |e2|e2]; try reflexivity; simpl;
    rewrite (Hrec e1 e2) by (simpl; lia); reflexivity.
Qed.

Lemma infer_element_types_body_ext (rec rec' : ty -> ty -> unified)
    (list1 list2 : ty) :
  (forall a b, ty_depth a + ty_depth b < ty_depth list1 + ty_depth list2 ->
               rec a b = rec' a b) ->
  infer_element_types_body rec list1 list2
  = infer_element_types_body rec' list1 list2.
Proof.
  intros Hrec. unfold infer_element_types_body.
  rewrite (inner_ext rec rec' list2 list1)
    by (intros a b Hab; apply Hrec; lia).
  rewrite (inner_ext rec rec' list1 list2)
    by (intros a b Hab; apply Hrec; lia).
  reflexivity.
Qed.

(** Any amount of fuel above the two depths gives the same answer. *)
Lemma infer_element_types_fuel_enough (n m : nat) (list1 list2 : ty) :
  ty_depth list1 + ty_depth list2 < n ->
  ty_depth list1 + ty_depth list2 < m ->
  infer_element_types_fuel n list1 list2
  = infer_element_types_fuel m list1 list2.
Proof.
  revert m list1 list2.
  induction n as [|n IH]; intros m list1 list2 Hn Hm; [lia|].
  destruct m as [|m]; [lia|]. simpl.
  apply infer_element_types_body_ext.
  intros a b Hab. apply IH; lia.
Qed.

(** The recursive equation of the source function. *)
Lemma infer_element_types_unfold (list1 list2 : ty) :
  infer_element_types list1 list2
  = infer_element_types_body infer_element_types list1 list2.
Proof.
  unfold infer_element_types at 1. simpl.
  apply infer_element_types_body_ext.
  intros a b Hab. unfold infer_element_types.
  apply infer_element_types_fuel_enough; lia.
Qed.

Lemma infer_element_types_refl (t : ty) :
  infer_element_types t t = Unified t.
Proof.
  induction t as [p| | |e IH|e IH];
    rewrite infer_element_types_unfold; unfold infer_element_types_body;
    simpl; try rewrite IH; try rewrite decide_True by reflexivity;
    reflexivity.
Qed.

(** The two element-wise rules with a [ListType] on the left. *)
Lemma infer_element_types_list_list (a b : ty) :
  infer_element_types (ListType a) (ListType b)
  = match infer_element_types b a with
    | Unified u => Unified (ListType u)
    | Incompatible _ =>
        match infer_element_types a b with
        | Unified u => Unified (ListType u)
        | Incompatible _ =>
            Incompatible (incompatible_list_types (ListType a) (ListType b))
        end
    end.
Proof.
  rewrite infer_element_types_unfold. unfold infer_element_types_body. simpl.
  destruct (infer_element_types b a) as [u|m]; [reflexivity|].
  destruct (infer_element_types a b) as [u|m'] eqn:Hab; [reflexivity|].
  destruct (decide (ListType a = ListType b)) as [Heq|Hne]; [|reflexivity].
  injection Heq as ->. rewrite infer_element_types_refl in Hab. discriminate.
Qed.

Lemma infer_element_types_list_possibly_empty (a b : ty) :
  infer_element_types (ListType a) (PossibleEmptyList b)
  = match infer_element_types a b with
    | Unified _ => Unified (PossibleEmptyList a)
    | Incompatible _ =>
        Incompatible (incompatible_list_types (ListType a) (PossibleEmptyList b))
    end.
Proof.
  rewrite infer_element_types_unfold. unfold infer_element_types_body. simpl.
  destruct (infer_element_types a b) as [u|m]; [reflexivity|].
  destruct (decide (ListType a = PossibleEmptyList b)); [discriminate|reflexivity].
Qed.

Lemma infer_element_types_list_empty (a : ty) :
  infer_element_types (ListType a) EmptyList = Unified (PossibleEmptyList a).
Proof. rewrite infer_element_types_unfold. reflexivity. Qed.

(** Outside the three rules, unequal types fail with both names. *)
Lemma infer_element_types_other (t1 t2 : ty) :
  list_rule_applies t1 t2 = false -> list_rule_applies t2 t1 = false ->
  t1 <> t2 ->
  infer_element_types t1 t2 = Incompatible (incompatible_list_types t1 t2).
Proof.
  intros H12 H21 Hne.
  rewrite infer_element_types_unfold. unfold infer_element_types_body.
  destruct t1, t2; try discriminate; simpl;
    repeat case_decide; congruence.
Qed.

Lemma same_verdict_sym_step (list1 list2 : ty) :
  (forall a b, ty_depth a + ty_depth b < ty_depth list1 + ty_depth list2 ->
               same_verdict (infer_element_types a b) (infer_element_types b a)) ->
  same_verdict (infer_element_types list1 list2)
               (infer_element_types list2 list1).
Proof.
  intros IH.
  rewrite (infer_element_types_unfold list1 list2),
          (infer_element_types_unfold list2 list1).
  unfold infer_element_types_body.
  destruct list1 as [p| | |e1|e1], list2 as [q| | |e2|e2]; simpl;
    try (repeat case_decide; simpl; congruence || tauto).
  - (* ListType, ListType *)
    specialize (IH e1 e2 ltac:(simpl; lia)).
    destruct (infer_element_types e1 e2) as [u|m],
             (infer_element_types e2 e1) as [u'|m']; simpl in *;
      try contradiction; try congruence.
    repeat case_decide; simpl; congruence || tauto.
  - (* ListType, PossibleEmptyList *)
    destruct (infer_element_types e1 e2) as [u|m]; simpl; [reflexivity|].
    repeat case_decide; simpl; congruence || tauto.
  - (* PossibleEmptyList, ListType *)
    destruct (infer_element_types e2 e1) as [u|m]; simpl; [reflexivity|].
    repeat case_decide; simpl; congruence || tauto.
Qed.

End UnificationFacts.

(** * Facts about the texts that Python reads as numbers *)







(** ** The two tests on literals, in words *)

Lemma substring_whole (s : string) : String.substring 0 (String.length s) s = s.
Proof. induction s as [|c s IH]; [reflexivity|]. cbn [String.length String.substring]. rewrite IH. reflexivity. Qed.

Lemma substring_split (s : string) :
  forall n, n <= String.length s ->
  s = String.substring 0 n s ++ String.substring n (String.length s - n) s.
Proof.
  induction s as [|c s IH]; intros n Hn.
  - cbn [String.length] in Hn. assert (n = 0) as -> by lia. reflexivity.
  - destruct n as [|n].
    + cbn [String.length String.substring Nat.sub].
      change ("" ++ ?x) with x. rewrite substring_whole. reflexivity.
    + cbn [String.length] in Hn.
      cbn [String.length String.substring Nat.sub].
      change (String c ?x ++ ?y) with (String c (x ++ y)).
      rewrite <- (IH n) by lia. reflexivity.
Qed.

Lemma endswith_suffix (s p : string) :
  endswith s p = true <-> exists pre, s = pre ++ p.
Proof.
  unfold endswith. split.
  - intros Hs. apply andb_true_iff in Hs as [Hlen Heq].
    apply Nat.leb_le in Hlen. apply String.eqb_eq in Heq.
    exists (String.substring 0 (String.length s - String.length p) s).
    pose proof (substring_split s (String.length s - String.length p)
                  ltac:(lia)) as Hsplit.
    replace (String.length s - (String.length s - String.length p))
      with (String.length p) in Hsplit by lia.
    rewrite Heq in Hsplit. exact Hsplit.
  - intros [pre ->]. induction pre as [|c pre IH].
    + change ("" ++ p) with p. rewrite Nat.leb_refl, Nat.sub_diag.
      rewrite substring_whole. apply String.eqb_refl.
    + change (String c pre ++ p) with (String c (pre ++ p)).
      apply andb_true_iff in IH as [Hlen Heq]. apply Nat.leb_le in Hlen.
      cbn [String.length].
      replace (S (String.length (pre ++ p)) - String.length p)
        with (S (String.length (pre ++ p) - String.length p)) by lia.
      cbn [String.substring]. rewrite Heq.
      rewrite andb_true_r. apply Nat.leb_le. lia.
Qed.

Lemma is_string_literal_spec (s : string) :
  is_string_literal s = true <-> quoted s.
Proof.
  unfold quoted. split.
  - intros Hs. unfold is_string_literal in Hs.
    apply orb_true_iff in Hs as [Hs|Hs].
    + apply String.eqb_eq in Hs. subst s. right. exists "". reflexivity.
    + apply andb_true_iff in Hs as [Hstart Hend].
      apply endswith_suffix in Hend as [pre ->].
      destruct pre as [|c pre]; [left; reflexivity|]. right.
      unfold startswith, dquote in Hstart.
      change (String c pre ++ String dquote_char "")
        with (String c (pre ++ String dquote_char "")) in Hstart.
      cbn [String.prefix] in Hstart.
      destruct (ascii_dec dquote_char c) as [<-|]; [|discriminate].
      exists pre. reflexivity.
  - intros [->|[body ->]]; [reflexivity|].
    unfold is_string_literal. apply orb_true_iff. right.
    apply andb_true_iff. split.
    + unfold startswith, dquote.
      change (String dquote_char "" ++ ?x) with (String dquote_char x).
      cbn [String.prefix].
      destruct (ascii_dec dquote_char dquote_char); [|congruence].
      destruct (body ++ String dquote_char ""); reflexivity.
    + apply endswith_suffix. exists (dquote ++ body).
      unfold dquote.
      change (String dquote_char "" ++ ?x) with (String dquote_char x).
      reflexivity.
Qed.

Lemma is_bool_literal_spec (s : string) :
  is_bool_literal s = true <-> bool_word s.
Proof.
  unfold is_bool_literal, bool_word. rewrite orb_true_iff, !String.eqb_eq.
  reflexivity.
Qed.

(** * The checked statements *)

(** ** Unification *)

(** C8: list-type unification is symmetric: for all types [t1] and [t2],
    [infer_element_types t1 t2] and [infer_element_types t2 t1] either both
    fail or both succeed with the same type. *)
Theorem infer_element_types_symmetric `{Externals} (t1 t2 : ty) :
  same_verdict (infer_element_types t1 t2) (infer_element_types t2 t1).
Proof.
  remember (ty_depth t1 + ty_depth t2) as n eqn:Hn.
  revert t1 t2 Hn.
  induction n as [n IH] using lt_wf_ind. intros t1 t2 ->.
  apply same_verdict_sym_step.
  intros a b Hab. exact (IH _ Hab a b eq_refl).
Qed.

(** C3 (the code departs from the rule for [List(a)] against
    [PossibleEmptyList(b)]): the result keeps the element [a] of the list
    and drops the unified element type, although the unification of the
    elements is computed.  With [a = List(Number)] and
    [b = PossibleEmptyList(Number)] the elements unify to
    [PossibleEmptyList(Number)], and the code answers
    [PossibleEmptyList(List(Number))]. *)
Theorem infer_element_types_possibly_empty_drops_unified_element
    `{Externals} :
  infer_element_types (ListType TNumber) (PossibleEmptyList TNumber)
  = Unified (PossibleEmptyList TNumber)
  /\ infer_element_types (ListType (ListType TNumber))
                         (PossibleEmptyList (PossibleEmptyList TNumber))
     = Unified (PossibleEmptyList (ListType TNumber))
  /\ infer_element_types (ListType (ListType TNumber))
                         (PossibleEmptyList (PossibleEmptyList TNumber))
     <> Unified (PossibleEmptyList (PossibleEmptyList TNumber)).
Proof. repeat split; [vm_compute; reflexivity ..|vm_compute; discriminate]. Qed.

(** The three sample unifications of the specification hold in the code. *)
Example unify_list_number_empty :
  infer_element_types (ListType TNumber) EmptyList
  = Unified (PossibleEmptyList TNumber).
Proof. reflexivity. Qed.

Example unify_list_number_possibly_empty_number :
  infer_element_types (ListType TNumber) (PossibleEmptyList TNumber)
  = Unified (PossibleEmptyList TNumber).
Proof. reflexivity. Qed.

Example unify_list_number_list_string :
  exists msg, infer_element_types (ListType TNumber) (ListType TString)
              = Incompatible msg.
Proof. eexists. vm_compute. reflexivity. Qed.

(** ** Atoms *)



(** The first two rules on samples: quoted texts and the two boolean
    words, also when the same text is a bound name. *)
Example infer_atom_literals_before_names :
  infer_type (atom (dquote ++ "a b" ++ dquote))
             (<["true" := TNumber]> no_bindings) = Ok TString
  /\ infer_type (atom "true") (<["true" := TNumber]> no_bindings) = Ok TBool
  /\ infer_type (atom "false") no_bindings = Ok TBool
  /\ infer_type (atom "x") (<["x" := TString]> no_bindings) = Ok TString
  /\ infer_type (atom "x") no_bindings
     = Fail (PMsg "Cannot infer type of 'x'").
Proof. repeat split; vm_compute; reflexivity. Qed.

(** C5, as the code has it: for an atom whose value is neither a string
    nor a number, [infer_type] returns the failure flag together with the
    [Unrecognized] type object in the place of the message. *)
Theorem infer_atom_other_value `{Externals} (v : value)
    (namespace : gmap string ty) :
  isinstance_str v = false -> is_numeric_literal v = false ->
  infer_type (Atom v) namespace = Fail (PType UnrecognizedType).
Proof. intros Hs Hn. destruct v; try discriminate. reflexivity. Qed.

Lemma infer_atom_other_value_witness :
  infer_type (Atom (VOther "None")) no_bindings = Fail (PType UnrecognizedType).
Proof. apply infer_atom_other_value; reflexivity. Defined.

(** C5 as stated fails: the atom carrying Python's [None] is not a
    success with the [Unrecognized] type. *)
Lemma infer_atom_other_value_not_success :
  isinstance_str (VOther "None") = false
  /\ is_numeric_literal (VOther "None") = false
  /\ infer_type (Atom (VOther "None")) no_bindings <> Ok UnrecognizedType.
Proof. repeat split. discriminate. Qed.

(** ** Forms whose first element is a form, and empty forms *)

(** C6 (the type checker departs from it): on a form whose first element
    is a form, emission raises the syntax error that names that element,
    while type inference reaches the end of its body without a [return]:
    it gives [None], neither an error nor a message that names the
    node. *)
Theorem form_headed_by_form `{Externals} (first rest : list obj)
    (namespace : gmap string ty) (indent : Z) :
  compile_obj (Form (Form first :: rest)) indent
  = Exc (SyntaxError ("Expected Atom as first element of Form, but got "
                      ++ obj_str (Form first)))
  /\ infer_type (Form (Form first :: rest)) namespace = ReturnsNone.
Proof. split; reflexivity. Qed.

(** A caller that unpacks such a result raises [TypeError]: here the
    [list] case of [infer_type] itself. *)
Example infer_list_of_form_headed_by_form :
  infer_type (Form [atom "list"; Form [Form [atom "f"]]]) no_bindings
  = Raise (TypeError "cannot unpack non-iterable NoneType object").
Proof. reflexivity. Qed.

(** C10: at every indentation level, emitting a form with no elements
    succeeds and returns the empty string. *)
Theorem compile_empty_form `{Externals} (indent : Z) :
  compile_obj (Form []) indent = Val "".
Proof. reflexivity. Qed.

(** ** The [list] form *)

(** The loop passes over a run of arguments that infer to compatible
    types, raising its counter by their number. *)
Lemma list_loop_prefix `{Externals} (rec : obj -> outcome) (pre : list obj)
    (ts : list ty) :
  Forall2 (fun a t => rec a = Ok t) pre ts ->
  forall (i : nat) (rest : list obj) (seed acc : ty),
    accumulate seed ts = Some acc ->
    list_loop rec i (pre ++ rest)%list seed
    = list_loop rec (i + length pre) rest acc.
Proof.
  induction 1 as [|a t pre ts Ha _ IH]; intros i rest seed acc Hacc.
  - simpl in *. injection Hacc as ->. f_equal. lia.
  - simpl in Hacc. unfold unify_element in Hacc.
    cbn [app list_loop]. rewrite Ha.
    destruct (infer_element_types (ListType seed) (ListType t)) as [r|m];
      [|discriminate].
    destruct (element_of r) as [el|]; [|discriminate].
    rewrite (IH (S i) rest el acc Hacc). f_equal. simpl. lia.
Qed.

Lemma infer_list_form `{Externals} (namespace : gmap string ty)
    (tl : list obj) :
  namespace !! "list" = None ->
  infer_type (Form (atom "list" :: tl)) namespace
  = match tl with
    | [] => Ok EmptyList
    | e1 :: rest =>
        match infer_type e1 namespace with
        | Ok element_type =>
            list_loop (fun e => infer_type e namespace) 2 rest element_type
        | Fail p => Fail p
        | Raise e => Raise e
        | ReturnsNone => Raise (TypeError unpack_none)
        end
    end.
Proof.
  intros Hns. cbn [infer_type atom infer_form namespace_get]. rewrite Hns.
  reflexivity.
Qed.

(** C4, as the code has it: [(list)] infers to [EmptyList]; in
    [(list a1 ... an)], when the arguments before [bad] infer to
    compatible types with accumulated element type [acc] and the type [t]
    of [bad] is incompatible with [acc], inference fails and the message
    carries the position of [bad] among the arguments counted from zero
    (one less than its 1-based position, which is [length pre + 2]) and
    the names of [t] and [acc]. *)
Theorem infer_list_reports_zero_based_position `{Externals}
    (namespace : gmap string ty) :
  namespace !! "list" = None ->
  infer_type (Form [atom "list"]) namespace = Ok EmptyList
  /\ (forall (a1 bad : obj) (pre post : list obj) (t1 acc t : ty)
             (ts : list ty),
        infer_type a1 namespace = Ok t1 ->
        Forall2 (fun a ti => infer_type a namespace = Ok ti) pre ts ->
        accumulate t1 ts = Some acc ->
        infer_type bad namespace = Ok t ->
        incompatible acc t ->
        infer_type (Form (atom "list" :: a1 :: pre ++ bad :: post)%list)
                   namespace
        = Fail (PMsg ("List " ++ pretty (S (length pre))
                      ++ "-th element has type '" ++ type_name t
                      ++ "' which is not compatible with inferred type '"
                      ++ type_name acc ++ "'"))).
Proof.
  intros Hns. split.
  - rewrite infer_list_form by exact Hns. reflexivity.
  - intros a1 bad pre post t1 acc t ts H1 Hpre Hacc Hbad [msg Hinc].
    rewrite infer_list_form by exact Hns. rewrite H1.
    rewrite (list_loop_prefix _ pre ts Hpre 2 (bad :: post) t1 acc Hacc).
    cbn [list_loop]. rewrite Hbad, Hinc. unfold list_element_message.
    replace (2 + length pre - 1) with (S (length pre)) by lia.
    reflexivity.
Qed.

Lemma infer_list_reports_zero_based_position_witness :
  infer_type (Form [atom "list"; atom "1"; atom "2"; atom "true"; atom "3"])
             no_bindings
  = Fail (PMsg ("List 2-th element has type 'Bool' which is not compatible"
                ++ " with inferred type 'Number'")).
Proof.
  refine (proj2 (infer_list_reports_zero_based_position no_bindings eq_refl)
                (atom "1") (atom "true") [atom "2"] [atom "3"]
                TNumber TNumber TBool [TNumber] _ _ _ _ _).
  - reflexivity.
  - constructor; [reflexivity|constructor].
  - reflexivity.
  - reflexivity.
  - eexists. vm_compute. reflexivity.
Defined.

(** C4 as stated fails: in [(list 1 true)] the incompatible argument is
    the second one, and the message reports position 1, not 2. *)
Lemma infer_list_second_argument_reported_as_first :
  infer_type (atom "1") no_bindings = Ok TNumber
  /\ infer_type (atom "true") no_bindings = Ok TBool
  /\ infer_type (Form [atom "list"; atom "1"; atom "true"]) no_bindings
     = Fail (PMsg ("List 1-th element has type 'Bool' which is not compatible"
                   ++ " with inferred type 'Number'"))
  /\ infer_type (Form [atom "list"; atom "1"; atom "true"]) no_bindings
     <> Fail (PMsg ("List 2-th element has type 'Bool' which is not compatible"
                   ++ " with inferred type 'Number'")).
Proof.
  repeat split; try (vm_compute; reflexivity). vm_compute. discriminate.
Qed.

(** ** The [if] form *)

Lemma infer_if_form `{Externals} (namespace : gmap string ty) (c t e : obj) :
  namespace !! "if" = None ->
  infer_type (Form [atom "if"; c; t; e]) namespace
  = infer_builtin (fun o => infer_type o namespace) "if" [c; t; e].
Proof.
  intros Hns. cbn [infer_type atom infer_form namespace_get]. rewrite Hns.
  reflexivity.
Qed.

Lemma maybe_empty_predicate_spec (t1 t2 : ty) :
  maybe_empty_predicate t1 t2 = true <-> exists T, list_with_maybe_empty t1 t2 T.
Proof.
  unfold maybe_empty_predicate, list_with_maybe_empty. split.
  - intros Hp. destruct t1; try discriminate.
    destruct t2; try discriminate; eauto.
  - intros (T & -> & [->|[U ->]]); reflexivity.
Qed.

(** What the [if] case computes: in [(if c t e)], a condition whose type
    is not [Bool] is an error that names the type found; with a [Bool]
    condition and branches of types [tt] and [te], equal types give that
    type; unequal types of which one is [List(T)] and the other is
    [EmptyList] or a [PossibleEmptyList(U)] give [PossibleEmptyList(T)],
    the test [maybe_empty_predicate] never looking at [U]; every other
    pair is an error naming both types. *)
Theorem infer_if_rule `{Externals} (namespace : gmap string ty) (c t e : obj) :
  namespace !! "if" = None ->
  (forall tc, infer_type c namespace = Ok tc -> tc <> TBool ->
     infer_type (Form [atom "if"; c; t; e]) namespace
     = Fail (PMsg ("Expected if condition to have type 'bool' but got '"
                   ++ type_name tc ++ "'")))
  /\ (forall tt te,
        infer_type c namespace = Ok TBool ->
        infer_type t namespace = Ok tt ->
        infer_type e namespace = Ok te ->
        (tt = te ->
         infer_type (Form [atom "if"; c; t; e]) namespace = Ok tt)
        /\ (forall T, tt <> te ->
              list_with_maybe_empty tt te T \/ list_with_maybe_empty te tt T ->
              infer_type (Form [atom "if"; c; t; e]) namespace
              = Ok (PossibleEmptyList T))
        /\ (tt <> te ->
            (forall T, ~ list_with_maybe_empty tt te T) ->
            (forall T, ~ list_with_maybe_empty te tt T) ->
            infer_type (Form [atom "if"; c; t; e]) namespace
            = Fail (PMsg ("Incompatible types in if branches: '"
                          ++ type_name tt ++ "' and '" ++ type_name te ++ "'")))).
Proof.
  intros Hns. split.
  - intros tc Hc Hne. rewrite infer_if_form by exact Hns.
    unfold infer_builtin. cbn [String.eqb Ascii.eqb Bool.eqb tail].
    simpl String.eqb. cbv iota. rewrite Hc.
    rewrite bool_decide_eq_false_2 by exact Hne. reflexivity.
  - intros tt te Hc Ht He.
    assert (Hstep : infer_type (Form [atom "if"; c; t; e]) namespace
                    = if negb (bool_decide (tt = te)) then
                        if maybe_empty_predicate tt te
                           || maybe_empty_predicate te tt
                        then match element_of (if is_list tt then tt else te) with
                             | Some el => Ok (PossibleEmptyList el)
                             | None => Raise AttributeError
                             end
                        else Fail (PMsg ("Incompatible types in if branches: '"
                                         ++ type_name tt ++ "' and '"
                                         ++ type_name te ++ "'"))
                      else Ok tt).
    { rewrite infer_if_form by exact Hns.
      unfold infer_builtin. simpl String.eqb. cbv iota.
      rewrite Hc, Ht, He. reflexivity. }
    rewrite Hstep. clear Hstep. repeat split.
    + intros Heq. rewrite bool_decide_eq_true_2 by exact Heq. reflexivity.
    + intros T Hne Hshape. rewrite bool_decide_eq_false_2 by exact Hne.
      destruct Hshape as [Hs|Hs].
      * assert (Hp : maybe_empty_predicate tt te = true)
          by (apply maybe_empty_predicate_spec; eauto).
        rewrite Hp. destruct Hs as [-> _]. reflexivity.
      * assert (Hp : maybe_empty_predicate te tt = true)
          by (apply maybe_empty_predicate_spec; eauto).
        rewrite Hp, orb_true_r.
        destruct Hs as [-> [->|[U ->]]]; reflexivity.
    + intros Hne Hn1 Hn2. rewrite bool_decide_eq_false_2 by exact Hne.
      destruct (maybe_empty_predicate tt te) eqn:Hp1.
      { apply maybe_empty_predicate_spec in Hp1 as [T HT].
        destruct (Hn1 T HT). }
      destruct (maybe_empty_predicate te tt) eqn:Hp2.
      { apply maybe_empty_predicate_spec in Hp2 as [T HT].
        destruct (Hn2 T HT). }
      reflexivity.
Qed.

Lemma infer_if_rule_witness :
  infer_type (Form [atom "if"; atom "true";
                    Form [atom "list"; atom "1"]; Form [atom "list"]])
             no_bindings
  = Ok (PossibleEmptyList TNumber).
Proof.
  destruct (infer_if_rule no_bindings (atom "true")
              (Form [atom "list"; atom "1"]) (Form [atom "list"]) eq_refl)
    as [_ Hbranches].
  destruct (Hbranches (ListType TNumber) EmptyList eq_refl eq_refl eq_refl)
    as (_ & Hlist & _).
  apply (Hlist TNumber).
  - discriminate.
  - left. split; [reflexivity|left; reflexivity].
Defined.

(** C2 (the code departs from it): the [if] case tests the two branch
    types with [maybe_empty_predicate], which looks at their outer
    constructors only.  With branches of types [List(Number)] and
    [PossibleEmptyList(String)], which are unequal and do not share their
    element type, inference does not fail with a message naming both
    types; it answers [PossibleEmptyList(Number)]. *)
Theorem infer_if_accepts_unrelated_element_types :
  infer_type (atom "true") no_bindings = Ok TBool
  /\ infer_type (Form [atom "list"; atom "1"]) no_bindings
     = Ok (ListType TNumber)
  /\ infer_type (Form [atom "rest";
                       Form [atom "list"; atom (dquote ++ "a" ++ dquote)]])
                no_bindings
     = Ok (PossibleEmptyList TString)
  /\ infer_type
       (Form [atom "if"; atom "true";
              Form [atom "list"; atom "1"];
              Form [atom "rest";
                    Form [atom "list"; atom (dquote ++ "a" ++ dquote)]]])
       no_bindings
     = Ok (PossibleEmptyList TNumber).
Proof. repeat split; vm_compute; reflexivity. Qed.

(** ** Argument counts in emission *)

Lemma checked_arity_cases (op : string) (expected : nat) :
  checked_arity op = Some expected ->
  In (op, expected)
     [ ("not", 1); ("first", 1); ("rest", 1); ("<", 2); (">", 2); ("<=", 2);
       (">=", 2); ("=", 2); ("map", 2); ("filter", 2); ("if", 3) ].
Proof.
  unfold checked_arity. intros Hop.
  repeat case_bool_decide; try discriminate; injection Hop as <-;
    repeat match goal with
           | Hin : _ ∈ _ :: _ |- _ => apply elem_of_cons in Hin as [->|Hin]
           | Hin : _ ∈ [] |- _ => apply elem_of_nil in Hin; destruct Hin
           end; subst; simpl; tauto.
Qed.

(** The cases of [compile_builtin] that test the argument count ([not],
    [first], [rest]: one; the four comparisons, [=], [map], [filter]:
    two; [if]: three): emitting a call with another number of arguments
    raises a [TypeError] whose message names the operator, the count
    asked for and the count given. *)
Theorem compile_arity_mismatch `{Externals} (op : string) (expected : nat)
    (tl : list obj) (indent : Z) :
  checked_arity op = Some expected ->
  length tl <> expected ->
  compile_obj (Form (atom op :: tl)) indent
  = Exc (TypeError (arity_error op expected (length tl))).
Proof.
  intros Hop Hlen. apply checked_arity_cases in Hop.
  apply Nat.eqb_neq in Hlen.
  cbn [compile_obj atom compile_form].
  repeat (destruct Hop as [Hop|Hop];
          [injection Hop as <- <-;
           unfold compile_builtin, create_op, arity_error;
           simpl in_builtins; simpl String.eqb; simpl format_value;
           cbv iota; simpl orb; cbv iota;
           rewrite Hlen; reflexivity|]).
  destruct Hop.
Qed.

(** The sample of the specification: [(not 1 2)]. *)
Lemma compile_arity_mismatch_witness :
  compile_obj (Form [atom "not"; atom "1"; atom "2"]) 0
  = Exc (TypeError "'not' takes 1 argument but 2 were given!").
Proof.
  apply (compile_arity_mismatch "not" 1 [atom "1"; atom "2"] 0).
  - reflexivity.
  - simpl. lia.
Defined.

(** C9 (the code departs from it): the [lambda] case of
    [compile_builtin] has no test of the argument count, unlike the
    cases of the other builtins with a fixed number of arguments.  The
    specification gives [lambda] exactly two arguments; a [lambda] with
    three is emitted without an error, the third being dropped, and a
    [lambda] with one raises a bare [IndexError] with no message. *)
Theorem compile_lambda_with_three_arguments :
  spec_fixed_arity "lambda" = Some 2
  /\ compile_obj (Form [atom "lambda"; atom "x"; atom "y"; atom "z"]) 0
     = Val "lambda x: y"
  /\ compile_obj (Form [atom "lambda"; atom "x"]) 0 = Exc IndexError.
Proof. repeat split; vm_compute; reflexivity. Qed.

(** ** Validation of the top level *)

Lemma compile_program_invalid `{Externals} (children : list ast_node)
    (ext_funcs : list (value * Function)) (is_repl : bool) (msg : string) :
  children <> [] ->
  validate (map to_object children) = (false, msg) ->
  compile_program children ext_funcs is_repl = Val (false, msg, []).
Proof.
  intros Hne Hval. unfold compile_program.
  destruct children as [|child rest]; [contradiction|].
  rewrite Hval. reflexivity.
Qed.

(** C1 (the code departs from it): [validate] tests
    [not is_function_def(obj) and is_import(obj)].  A top-level form that
    is neither a function definition nor an import passes the test, and a
    form that is an import and not a function definition is the one that
    is rejected, with the message written for the other case; so
    [compile_program] rejects a tree that starts with such an import. *)
Theorem validate_import_test `{Externals} (elements : list obj)
    (rest : list obj) :
  is_function_def (Form elements) = false ->
  (is_import (Form elements) = false ->
   validate (Form elements :: rest) = validate rest)
  /\ (is_import (Form elements) = true ->
      validate (Form elements :: rest)
      = (false, "Expected only function definitions and imports at root-level but got: "
                ++ obj_str (Form elements)))
  /\ (is_import (Form elements) = true ->
      forall child children ext_funcs is_repl,
        to_object child = Form elements ->
        compile_program (child :: children) ext_funcs is_repl
        = Val (false,
               "Expected only function definitions and imports at root-level but got: "
               ++ obj_str (Form elements), [])).
Proof.
  intros Hdef.
  assert (Hrej : is_import (Form elements) = true ->
                 forall rest', validate (Form elements :: rest')
                 = (false, "Expected only function definitions and imports at root-level but got: "
                           ++ obj_str (Form elements))).
  { intros Himp rest'. simpl. rewrite Hdef, Himp. reflexivity. }
  repeat split.
  - intros Himp. simpl. rewrite Hdef, Himp. reflexivity.
  - intros Himp. apply Hrej, Himp.
  - intros Himp child children ext_funcs is_repl Hchild.
    apply compile_program_invalid; [discriminate|].
    cbn [map]. rewrite Hchild. apply Hrej, Himp.
Qed.

Lemma validate_import_test_witness :
  validate [Form [atom "print"; atom "1"]] = (true, "").
Proof.
  refine (proj1 (validate_import_test (H := sample_externals)
                   [atom "print"; atom "1"] [] _) _); reflexivity.
Defined.

(** With the sample helpers: a program made of an import and of [main] is
    rejected, and a program with a bare [print] form at the top level is
    accepted. *)
Example compile_program_rejects_import :
  compile_program
    [ Form [atom "import"; atom "foo"];
      Form [atom "fun"; atom "main"; Form []; Form [atom "print"; atom "1"]] ]
    [] false
  = Val (false,
         "Expected only function definitions and imports at root-level but got: (import foo)",
         []).
Proof. vm_compute. reflexivity. Qed.

Example compile_program_accepts_bare_form :
  exists output namespace,
    compile_program
      [ Form [atom "print"; atom "1"];
        Form [atom "fun"; atom "main"; Form []; Form [atom "print"; atom "1"]] ]
      [] false
    = Val (true, output, namespace).
Proof. eexists _, _. vm_compute. reflexivity. Qed.

(** The two-function program of the specification. *)
Example compile_program_two_functions :
  compile_program
    [ Form [atom "fun"; atom "main"; Form [];
            Form [atom "helper"; atom "1"; atom "2"]];
      Form [atom "fun"; atom "helper"; Form [atom "a"; atom "b"];
            Form [atom "+"; atom "a"; atom "b"]] ]
    [] false
  = Val (true,
         "from lisp_core import *" ++ newline ++ newline
         ++ "if __name__ == '__main__':" ++ newline
         ++ "    helper(1,2)" ++ newline ++ newline ++ newline
         ++ "def helper(a, b):" ++ newline
         ++ "    return a + b" ++ newline ++ newline,
         [ (VStr "main",
            mkFunction "main" [] [Form [atom "helper"; atom "1"; atom "2"]]);
           (VStr "helper",
            mkFunction "helper" ["a"; "b"]
                       [Form [atom "+"; atom "a"; atom "b"]]) ]).
Proof. vm_compute. reflexivity. Qed.

Example compile_program_empty_tree :
  compile_program [] [] false = Val (true, "", []).
Proof. reflexivity. Qed.

(** * Further properties of the type checker *)

Lemma infer_element_types_sym_aux `{Externals} (t1 t2 : ty) :
  same_verdict (infer_element_types t1 t2) (infer_element_types t2 t1).
Proof.
  remember (ty_depth t1 + ty_depth t2) as n eqn:Hn.
  revert t1 t2 Hn.
  induction n as [n IH] using lt_wf_ind. intros t1 t2 ->.
  apply same_verdict_sym_step.
  intros a b Hab. exact (IH _ Hab a b eq_refl).
Qed.

(** X1: unifying a type with itself succeeds and gives that type. *)
Theorem infer_element_types_idempotent `{Externals} (t : ty) :
  infer_element_types t t = Unified t.
Proof. apply infer_element_types_refl. Qed.

(** X2: a failed unification always reports the two types it was called
    with: the messages built for nested element types and the empty
    message of [inner] never reach the caller. *)
Theorem infer_element_types_failure_message `{Externals} (list1 list2 : ty)
    (msg : string) :
  infer_element_types list1 list2 = Incompatible msg ->
  msg = incompatible_list_types list1 list2.
Proof.
  intros Hm. rewrite infer_element_types_unfold in Hm.
  unfold infer_element_types_body in Hm.
  destruct (inner infer_element_types list2 list1); [discriminate|].
  destruct (inner infer_element_types list1 list2); [discriminate|].
  case_decide; [discriminate|]. congruence.
Qed.

Lemma infer_element_types_failure_message_witness :
  "Incompatible list types 'List[List[Number]]', 'List[List[String]]'"
  = incompatible_list_types (ListType (ListType TNumber))
                            (ListType (ListType TString)).
Proof.
  apply (infer_element_types_failure_message
           (ListType (ListType TNumber)) (ListType (ListType TString))).
  vm_compute. reflexivity.
Defined.

(** X3: when neither type is a [ListType], unification is equality: equal
    types unify to themselves and unequal ones fail, so [EmptyList] never
    unifies with a [PossibleEmptyList], and two [PossibleEmptyList] types
    unify only when they are the same type. *)
Theorem infer_element_types_without_list `{Externals} (t1 t2 : ty) :
  is_list t1 = false -> is_list t2 = false ->
  infer_element_types t1 t2
  = if decide (t1 = t2) then Unified t1
    else Incompatible (incompatible_list_types t1 t2).
Proof.
  intros H1 H2. case_decide as Heq.
  - subst t2. apply infer_element_types_refl.
  - apply infer_element_types_other; [| |exact Heq];
      unfold list_rule_applies; [rewrite H1|rewrite H2]; reflexivity.
Qed.

Lemma infer_element_types_without_list_witness :
  infer_element_types (PossibleEmptyList TNumber) EmptyList
  = Incompatible "Incompatible list types 'PossibleEmptyList[Number]', 'EmptyList'".
Proof.
  rewrite (infer_element_types_without_list
             (PossibleEmptyList TNumber) EmptyList eq_refl eq_refl).
  reflexivity.
Defined.

Lemma infer_element_types_lists_elementwise_aux `{Externals} (a b : ty) :
  infer_element_types (ListType a) (ListType b)
  = match infer_element_types a b with
    | Unified u => Unified (ListType u)
    | Incompatible _ =>
        Incompatible (incompatible_list_types (ListType a) (ListType b))
    end.
Proof.
  rewrite infer_element_types_list_list.
  pose proof (infer_element_types_sym_aux a b) as Hsym.
  destruct (infer_element_types a b) as [u|m],
           (infer_element_types b a) as [u'|m']; simpl in Hsym;
    try contradiction; congruence.
Qed.

(** X4: two list types unify exactly when their element types do, and
    the result is the list of the unified element type. *)
Theorem infer_element_types_lists_elementwise `{Externals} (a b : ty) :
  infer_element_types (ListType a) (ListType b)
  = match infer_element_types a b with
    | Unified u => Unified (ListType u)
    | Incompatible _ =>
        Incompatible (incompatible_list_types (ListType a) (ListType b))
    end.
Proof. apply infer_element_types_lists_elementwise_aux. Qed.

(** ** The [list] form *)

Lemma list_loop_type_or_message `{Externals} (rec : obj -> outcome)
    (rest : list obj) :
  Forall (fun a => exists t, rec a = Ok t) rest ->
  forall (i : nat) (element_type : ty),
    match list_loop rec i rest element_type with
    | Ok t => exists e, t = ListType e
    | Fail (PMsg _) => True
    | _ => False
    end.
Proof.
  induction 1 as [|a rest [t Ha] _ IH]; intros i element_type.
  - simpl. eauto.
  - cbn [list_loop]. rewrite Ha.
    rewrite infer_element_types_lists_elementwise_aux.
    destruct (infer_element_types element_type t) as [u|m]; [|exact I].
    cbn [element_of]. apply IH.
Qed.

(** X5: when every argument of a [list] form infers to a type, the form
    infers to [EmptyList] (no argument) or to a [ListType], or fails with
    a message; it raises no exception. *)
Theorem infer_list_type_or_message `{Externals} (namespace : gmap string ty)
    (tl : list obj) :
  namespace !! "list" = None ->
  Forall (fun a => exists t, infer_type a namespace = Ok t) tl ->
  match infer_type (Form (atom "list" :: tl)) namespace with
  | Ok t => (tl = [] /\ t = EmptyList) \/ (tl <> [] /\ exists e, t = ListType e)
  | Fail (PMsg _) => True
  | _ => False
  end.
Proof.
  intros Hns Hall. rewrite infer_list_form by exact Hns.
  destruct Hall as [|a rest [t Ha] Hrest]; [left; split; reflexivity|].
  rewrite Ha.
  pose proof (list_loop_type_or_message
                (fun e => infer_type e namespace) rest Hrest 2 t) as Hloop.
  destruct (list_loop _ 2 rest t) as [t'|[m|t']|x|]; try exact Hloop.
  right. split; [discriminate|exact Hloop].
Qed.

Lemma infer_list_type_or_message_witness :
  match infer_type (Form [atom "list"; atom "1"; atom "2"]) no_bindings with
  | Ok t => ([atom "1"; atom "2"] = [] /\ t = EmptyList)
            \/ ([atom "1"; atom "2"] <> [] /\ exists e, t = ListType e)
  | Fail (PMsg _) => True
  | _ => False
  end.
Proof.
  apply (infer_list_type_or_message no_bindings [atom "1"; atom "2"]).
  - reflexivity.
  - repeat constructor; exists TNumber; reflexivity.
Defined.

Lemma list_loop_same_type `{Externals} (rec : obj -> outcome) (T : ty)
    (rest : list obj) :
  Forall (fun a => rec a = Ok T) rest ->
  forall i : nat, list_loop rec i rest T = Ok (ListType T).
Proof.
  induction 1 as [|a rest Ha _ IH]; intros i; [reflexivity|].
  cbn [list_loop]. rewrite Ha, infer_element_types_refl. cbn [element_of].
  apply IH.
Qed.

(** X6: a [list] form with at least one argument, all of whose arguments
    infer to the same type [T], infers to [List(T)]. *)
Theorem infer_list_same_type `{Externals} (namespace : gmap string ty)
    (a1 : obj) (rest : list obj) (T : ty) :
  namespace !! "list" = None ->
  Forall (fun a => infer_type a namespace = Ok T) (a1 :: rest) ->
  infer_type (Form (atom "list" :: a1 :: rest)) namespace = Ok (ListType T).
Proof.
  intros Hns Hall. apply Forall_cons_1 in Hall as [H1 Hrest].
  rewrite infer_list_form by exact Hns. rewrite H1.
  apply list_loop_same_type. exact Hrest.
Qed.

Lemma infer_list_same_type_witness :
  infer_type (Form [atom "list"; atom "true"; atom "false"; atom "true"])
             no_bindings
  = Ok (ListType TBool).
Proof.
  apply (infer_list_same_type no_bindings (atom "true")
           [atom "false"; atom "true"] TBool).
  - reflexivity.
  - repeat constructor.
Defined.

(** X7: a [list] form hands on, unchanged, the failure of the first
    argument that does not infer, when the arguments before it infer to
    compatible types: the arguments after it are not looked at. *)
Theorem infer_list_propagates_failure `{Externals}
    (namespace : gmap string ty) (p : payload) :
  namespace !! "list" = None ->
  (forall (bad : obj) (post : list obj),
     infer_type bad namespace = Fail p ->
     infer_type (Form (atom "list" :: bad :: post)) namespace = Fail p)
  /\ (forall (a1 bad : obj) (pre post : list obj) (t1 acc : ty) (ts : list ty),
        infer_type a1 namespace = Ok t1 ->
        Forall2 (fun a ti => infer_type a namespace = Ok ti) pre ts ->
        accumulate t1 ts = Some acc ->
        infer_type bad namespace = Fail p ->
        infer_type (Form (atom "list" :: a1 :: pre ++ bad :: post)%list)
                   namespace
        = Fail p).
Proof.
  intros Hns. split.
  - intros bad post Hbad. rewrite infer_list_form by exact Hns.
    rewrite Hbad. reflexivity.
  - intros a1 bad pre post t1 acc ts H1 Hpre Hacc Hbad.
    rewrite infer_list_form by exact Hns. rewrite H1.
    rewrite (list_loop_prefix _ pre ts Hpre 2 (bad :: post) t1 acc Hacc).
    cbn [list_loop]. rewrite Hbad. reflexivity.
Qed.

Lemma infer_list_propagates_failure_witness :
  infer_type (Form [atom "list"; atom "1"; atom "2"; atom "x";
                    Form [Form []]])
             no_bindings
  = Fail (PMsg "Cannot infer type of 'x'").
Proof.
  refine (proj2 (infer_list_propagates_failure no_bindings
                   (PMsg "Cannot infer type of 'x'") eq_refl)
                (atom "1") (atom "x") [atom "2"] [Form [Form []]]
                TNumber TNumber [TNumber] _ _ _ _).
  - reflexivity.
  - constructor; [reflexivity|constructor].
  - reflexivity.
  - reflexivity.
Defined.

(** ** Forms without a typing rule *)

Lemma infer_unbound_form `{Externals} (namespace : gmap string ty)
    (s : string) (tl : list obj) :
  namespace !! s = None ->
  infer_type (Form (atom s :: tl)) namespace
  = if in_builtins (VStr s)
    then infer_builtin (fun e => infer_type e namespace) s tl
    else Fail (PMsg ("Unrecognized form '" ++ s ++ "', cannot infer type")).
Proof.
  intros Hns. cbn [infer_type atom infer_form namespace_get]. rewrite Hns.
  reflexivity.
Qed.

(** X8: a form whose head is a name that is not bound in the namespace
    and is none of [list], [++], [first], [rest], [if] fails with the
    message "Unrecognized form '<name>', cannot infer type", whatever its
    arguments are.  This holds for unknown names and for the other
    builtins alike: the arithmetic, comparison and logical operators,
    [print], [map], [filter], [lambda] and [import] have no type. *)
Theorem infer_untyped_form `{Externals} (namespace : gmap string ty)
    (s : string) (tl : list obj) :
  namespace !! s = None ->
  s ∉ typed_builtins ->
  infer_type (Form (atom s :: tl)) namespace
  = Fail (PMsg ("Unrecognized form '" ++ s ++ "', cannot infer type")).
Proof.
  intros Hns Hs. rewrite infer_unbound_form by exact Hns.
  destruct (in_builtins (VStr s)); [|reflexivity].
  unfold typed_builtins in Hs.
  apply not_elem_of_cons in Hs as [Hlist Hs].
  apply not_elem_of_cons in Hs as [Happend Hs].
  apply not_elem_of_cons in Hs as [Hfirst Hs].
  apply not_elem_of_cons in Hs as [Hrest Hs].
  apply not_elem_of_cons in Hs as [Hif _].
  apply String.eqb_neq in Hlist, Happend, Hfirst, Hrest, Hif.
  unfold infer_builtin.
  rewrite Hlist, Happend, Hfirst, Hrest, Hif. reflexivity.
Qed.

Lemma infer_untyped_form_witness :
  infer_type (Form [atom "+"; atom "1"; atom "2"]) no_bindings
  = Fail (PMsg "Unrecognized form '+', cannot infer type").
Proof.
  apply (infer_untyped_form no_bindings "+" [atom "1"; atom "2"]).
  - reflexivity.
  - vm_compute. intros Hin.
    repeat (apply elem_of_cons in Hin as [Hin|Hin]; [discriminate|]).
    apply elem_of_nil in Hin. exact Hin.
Defined.

(** ** [first], [rest] and [++] *)

Lemma infer_rest_form `{Externals} (namespace : gmap string ty)
    (tl : list obj) :
  namespace !! "rest" = None ->
  infer_type (Form (atom "rest" :: tl)) namespace
  = match tl with
    | [] => Raise IndexError
    | e1 :: _ =>
        match infer_type e1 namespace with
        | Ok list_type =>
            match list_type with
            | ListType e => Ok (PossibleEmptyList e)
            | _ => Fail (PMsg ("'rest' expected a non-empty List type but got '"
                               ++ type_name list_type ++ "'"))
            end
        | Fail p => Fail p
        | Raise x => Raise x
        | ReturnsNone => Raise (TypeError unpack_none)
        end
    end.
Proof. intros Hns. rewrite infer_unbound_form by exact Hns. reflexivity. Qed.

Lemma infer_first_form `{Externals} (namespace : gmap string ty)
    (tl : list obj) :
  namespace !! "first" = None ->
  infer_type (Form (atom "first" :: tl)) namespace
  = match tl with
    | [] => Raise IndexError
    | e1 :: _ =>
        match infer_type e1 namespace with
        | Ok list_type =>
            match list_type with
            | ListType e => Ok e
            | _ => Fail (PMsg ("'first' expected a non-empty List type but got '"
                               ++ type_name list_type ++ "'"))
            end
        | Fail p => Fail p
        | Raise x => Raise x
        | ReturnsNone => Raise (TypeError unpack_none)
        end
    end.
Proof. intros Hns. rewrite infer_unbound_form by exact Hns. reflexivity. Qed.

Lemma infer_rest_result `{Externals} (namespace : gmap string ty)
    (tl : list obj) (t : ty) :
  namespace !! "rest" = None ->
  infer_type (Form (atom "rest" :: tl)) namespace = Ok t ->
  exists e, t = PossibleEmptyList e.
Proof.
  intros Hns. rewrite infer_rest_form by exact Hns.
  destruct tl as [|e1 tl]; [discriminate|].
  destruct (infer_type e1 namespace) as [lt|p|x|]; try discriminate.
  destruct lt; try discriminate. intros [= <-]. eauto.
Qed.

(** X9: the tail of a list is never known to be non-empty, so [rest] and
    [first] applied to a [rest] form never infer to a type:
    [(rest (rest x))] and [(first (rest x))] do not type-check, whatever
    [x] is. *)
Theorem infer_after_rest `{Externals} (namespace : gmap string ty) (x : obj) :
  namespace !! "rest" = None ->
  namespace !! "first" = None ->
  (forall t, infer_type (Form [atom "rest"; Form [atom "rest"; x]]) namespace
             <> Ok t)
  /\ (forall t, infer_type (Form [atom "first"; Form [atom "rest"; x]]) namespace
                <> Ok t).
Proof.
  intros Hrest Hfirst.
  pose proof (infer_rest_result namespace [x]) as Hinner.
  split; intros t.
  - rewrite infer_rest_form by exact Hrest.
    destruct (infer_type (Form [atom "rest"; x]) namespace) as [lt|p|e|];
      try discriminate.
    destruct (Hinner lt Hrest eq_refl) as [e ->]. discriminate.
  - rewrite infer_first_form by exact Hfirst.
    destruct (infer_type (Form [atom "rest"; x]) namespace) as [lt|p|e|];
      try discriminate.
    destruct (Hinner lt Hrest eq_refl) as [e ->]. discriminate.
Qed.

Lemma infer_after_rest_witness :
  infer_type (Form [atom "rest";
                    Form [atom "rest"; Form [atom "list"; atom "1"; atom "2"]]])
             no_bindings
  <> Ok (PossibleEmptyList TNumber).
Proof.
  apply (proj1 (infer_after_rest no_bindings
                  (Form [atom "list"; atom "1"; atom "2"]) eq_refl eq_refl)).
Defined.

Lemma infer_append_form `{Externals} (namespace : gmap string ty)
    (x l : obj) (more : list obj) (element_type list_type : ty) :
  namespace !! "++" = None ->
  infer_type x namespace = Ok element_type ->
  infer_type l namespace = Ok list_type ->
  infer_type (Form (atom "++" :: x :: l :: more)) namespace
  = if is_empty_list list_type then Ok (ListType element_type)
    else if is_list list_type || is_possibly_empty list_type then
      match infer_element_types (ListType element_type) list_type with
      | Unified resulting_list_type => Ok resulting_list_type
      | Incompatible _ =>
          Fail (PMsg ("Cannot append element of type '"
                      ++ type_name element_type ++ "' to '"
                      ++ type_name list_type ++ "'"))
      end
    else Fail (PMsg ("Cannot append element of type '"
                     ++ type_name element_type ++ "' to '"
                     ++ type_name list_type ++ "'")).
Proof.
  intros Hns Hx Hl. rewrite infer_unbound_form by exact Hns.
  unfold infer_builtin. simpl in_builtins. simpl String.eqb. cbv iota.
  rewrite Hx, Hl. reflexivity.
Qed.

(** X10: [(++ x l)] with [x] of type [T]: appending to an [EmptyList] or
    to a [List(T)] gives [List(T)]; appending to a [PossibleEmptyList(T)]
    gives [PossibleEmptyList(T)], not a list known to be non-empty;
    appending to a type that is no list at all fails with the message
    "Cannot append element of type ... to ...". *)
Theorem infer_append_rule `{Externals} (namespace : gmap string ty)
    (x l : obj) (T L : ty) :
  namespace !! "++" = None ->
  infer_type x namespace = Ok T ->
  infer_type l namespace = Ok L ->
  (L = EmptyList ->
   infer_type (Form [atom "++"; x; l]) namespace = Ok (ListType T))
  /\ (L = ListType T ->
      infer_type (Form [atom "++"; x; l]) namespace = Ok (ListType T))
  /\ (L = PossibleEmptyList T ->
      infer_type (Form [atom "++"; x; l]) namespace = Ok (PossibleEmptyList T))
  /\ (is_empty_list L = false -> is_list L = false ->
      is_possibly_empty L = false ->
      infer_type (Form [atom "++"; x; l]) namespace
      = Fail (PMsg ("Cannot append element of type '" ++ type_name T
                    ++ "' to '" ++ type_name L ++ "'"))).
Proof.
  intros Hns Hx Hl.
  rewrite (infer_append_form namespace x l [] T L Hns Hx Hl).
  repeat split.
  - intros ->. reflexivity.
  - intros ->. simpl. rewrite infer_element_types_refl. reflexivity.
  - intros ->. simpl. rewrite infer_element_types_list_possibly_empty.
    rewrite infer_element_types_refl. reflexivity.
  - intros -> -> ->. reflexivity.
Qed.

Lemma infer_append_rule_witness :
  infer_type (Form [atom "++"; atom "1";
                    Form [atom "rest"; Form [atom "list"; atom "2"]]])
             no_bindings
  = Ok (PossibleEmptyList TNumber).
Proof.
  refine (proj1 (proj2 (proj2
            (infer_append_rule no_bindings (atom "1")
               (Form [atom "rest"; Form [atom "list"; atom "2"]])
               TNumber (PossibleEmptyList TNumber) eq_refl eq_refl eq_refl))) _).
  reflexivity.
Defined.

(** X11: the type checker does not count arguments: a [++], [first],
    [rest] or [if] form without any argument raises [IndexError] and
    returns no diagnostic. *)
Theorem infer_missing_operand `{Externals} (namespace : gmap string ty)
    (op : string) :
  namespace !! op = None ->
  op ∈ ["++"; "first"; "rest"; "if"] ->
  infer_type (Form [atom op]) namespace = Raise IndexError.
Proof.
  intros Hns Hop. rewrite infer_unbound_form by exact Hns.
  repeat (apply elem_of_cons in Hop as [->|Hop]; [reflexivity|]).
  apply elem_of_nil in Hop. destruct Hop.
Qed.

Lemma infer_missing_operand_witness :
  infer_type (Form [atom "if"]) no_bindings = Raise IndexError.
Proof.
  apply (infer_missing_operand no_bindings "if").
  - reflexivity.
  - do 3 apply list_elem_of_further. apply list_elem_of_here.
Defined.

(** * Further properties of the code generator *)

Lemma string_app_empty_r (s : string) : s ++ "" = s.
Proof.
  induction s as [|c s IH]; [reflexivity|].
  change (String c (s ++ "") = String c s). rewrite IH. reflexivity.
Qed.

(** X12: the indentation level only puts [4 * indent] spaces before the
    text: for every node but the form without elements, [compile_obj] at
    level [indent] raises what it raises at level 0 or returns the text
    of level 0 after the spaces. *)
Theorem compile_obj_indent_is_prefix `{Externals} (o : obj) (indent : Z) :
  o <> Form [] ->
  compile_obj o indent = prefixed (spaces (indent * 4)) (compile_obj o 0).
Proof.
  intros Hne. destruct o as [v|[|[head|first] tl]].
  - destruct v; reflexivity.
  - contradiction.
  - cbn [compile_obj compile_form].
    destruct (in_builtins head).
    + destruct (compile_builtin _ (format_value head) tl); reflexivity.
    + destruct (compile_each _ tl); reflexivity.
  - reflexivity.
Qed.

Lemma compile_obj_indent_is_prefix_witness :
  compile_obj (Form [atom "f"; atom "x"; atom "true"]) 2
  = prefixed (spaces (2 * 4))
             (compile_obj (Form [atom "f"; atom "x"; atom "true"]) 0).
Proof.
  apply (compile_obj_indent_is_prefix (Form [atom "f"; atom "x"; atom "true"]) 2).
  discriminate.
Defined.

(** X13: an arithmetic or logical operator with one operand emits the
    operand alone: [(- x)] is emitted as [x], with no sign, and the same
    holds for [and], [or], [+], the product and the quotient. *)
Theorem compile_single_operand `{Externals} (op : string) (e : obj)
    (indent : Z) :
  op ∈ variadic_infix ->
  compile_obj (Form [atom op; e]) indent
  = prefixed (spaces (indent * 4)) (compile_obj e 0).
Proof.
  intros Hop. unfold variadic_infix in Hop.
  repeat (apply elem_of_cons in Hop as [->|Hop];
          [cbn [compile_obj atom compile_form];
           unfold compile_builtin, create_body;
           simpl in_builtins; simpl format_value; simpl String.eqb;
           cbv iota; simpl orb; cbv iota; cbn [compile_each];
           destruct (compile_obj e 0) as [s|x]; [|reflexivity];
           cbn [wrap prefixed join String.concat];
           rewrite ?string_app_empty_r; reflexivity|]).
  apply elem_of_nil in Hop. destruct Hop.
Qed.

Lemma compile_single_operand_witness :
  compile_obj (Form [atom "-"; atom "x"]) 0 = Val "x".
Proof.
  apply (compile_single_operand "-" (atom "x") 0).
  apply list_elem_of_further, list_elem_of_here.
Defined.

Lemma compile_each_prefix (rec : obj -> res string) (pre : list obj)
    (parts : list string) (bad : obj) (post : list obj) (x : exn) :
  compile_each rec pre = Val parts ->
  rec bad = Exc x ->
  compile_each rec (pre ++ bad :: post)%list = Exc x.
Proof.
  revert parts. induction pre as [|a pre IH]; intros parts Hpre Hbad.
  - simpl. rewrite Hbad. reflexivity.
  - simpl in *. destruct (rec a) as [s|y]; [|discriminate].
    destruct (compile_each rec pre) as [ps|y]; [|discriminate].
    rewrite (IH ps eq_refl Hbad). reflexivity.
Qed.

(** X14: in a call of a function that is not a builtin, the arguments
    are emitted from left to right and the exception of the first one
    that fails is the exception of the call; the arguments after it are
    not emitted. *)
Theorem compile_call_first_exception `{Externals} (f : string)
    (pre post : list obj) (bad : obj) (parts : list string) (x : exn)
    (indent : Z) :
  in_builtins (VStr f) = false ->
  compile_each (fun e => compile_obj e 0) pre = Val parts ->
  compile_obj bad 0 = Exc x ->
  compile_obj (Form (atom f :: pre ++ bad :: post)%list) indent = Exc x.
Proof.
  intros Hf Hpre Hbad. cbn [compile_obj atom compile_form]. rewrite Hf.
  rewrite (compile_each_prefix _ pre parts bad post x Hpre Hbad).
  reflexivity.
Qed.

Lemma compile_call_first_exception_witness :
  compile_obj (Form [atom "f"; atom "x"; Form [atom "not"];
                     Form [Form []]]) 0
  = Exc (TypeError "'not' takes 1 argument but 0 were given!").
Proof.
  apply (compile_call_first_exception "f" [atom "x"] [Form [Form []]]
           (Form [atom "not"]) ["x"]); reflexivity.
Defined.

(** ** Emission of a function *)

Lemma function_lines_layout `{Externals} (add_return : bool)
    (rest : list obj) :
  forall (i n : nat) (parts : list string),
    compile_each (fun o => compile_obj o 0) rest = Val parts ->
    n = i + length rest ->
    function_lines add_return 0 n i rest = Val (body_lines add_return parts).
Proof.
  induction rest as [|o rest IH]; intros i n parts Hparts Hn.
  - injection Hparts as <-. destruct add_return; reflexivity.
  - cbn [compile_each] in Hparts. cbn [function_lines].
    destruct (compile_obj o 0) as [s|x]; [|discriminate].
    destruct (compile_each _ rest) as [ps|x] eqn:Hrest; [|discriminate].
    injection Hparts as <-.
    rewrite (IH (S i) n ps eq_refl) by (simpl in Hn; lia).
    destruct add_return; [|reflexivity].
    destruct rest as [|o' rest'].
    + injection Hrest as <-.
      replace (Z.of_nat i =? Z.of_nat n - 1)%Z with true
        by (symmetry; apply Z.eqb_eq; simpl in Hn; lia).
      reflexivity.
    + replace (Z.of_nat i =? Z.of_nat n - 1)%Z with false
        by (symmetry; apply Z.eqb_neq; simpl in Hn; lia).
      cbn [compile_each] in Hrest.
      destruct (compile_obj o' 0) as [s'|x]; [|discriminate].
      destruct (compile_each _ rest') as [ps'|x]; [|discriminate].
      injection Hrest as <-. reflexivity.
Qed.

(** X15: when every expression of the body of a function can be emitted,
    [compile_function] at the top level returns the header, the body
    lines indented by four spaces and joined by newlines, and a closing
    newline.  For [main] the header is the entry-point test, no line
    gets [return] and two newlines close the block; for every other
    function the header is [def name(args):] with the parameters joined
    by a comma and a space, and [return] stands before the last
    expression only. *)
Theorem compile_function_layout `{Externals} (function : Function)
    (parts : list string) :
  compile_each (fun o => compile_obj o 0) (body function) = Val parts ->
  compile_function function 0
  = Val (if String.eqb (name function) "main" then
           ("if __name__ == '__main__':" ++ newline)
           ++ join newline (body_lines false parts) ++ newline ++ newline
         else
           ("def " ++ name function ++ "(" ++ join ", " (args function)
            ++ "):" ++ newline)
           ++ join newline (body_lines true parts) ++ newline).
Proof.
  intros Hparts. unfold compile_function.
  destruct (String.eqb (name function) "main").
  - rewrite (function_lines_layout false (body function) 0
               (length (body function)) parts Hparts eq_refl).
    reflexivity.
  - rewrite (function_lines_layout true (body function) 0
               (length (body function)) parts Hparts eq_refl).
    reflexivity.
Qed.

Lemma compile_function_layout_witness :
  compile_function
    (mkFunction "area" ["w"; "h"]
                [Form [atom "print"; atom "w"]; Form [atom "*"; atom "w"; atom "h"]])
    0
  = Val ("def area(w, h):" ++ newline
         ++ "    print(w)" ++ newline
         ++ "    return w * h" ++ newline).
Proof.
  apply (compile_function_layout
           (mkFunction "area" ["w"; "h"]
              [Form [atom "print"; atom "w"];
               Form [atom "*"; atom "w"; atom "h"]])
           ["print(w)"; "w * h"]).
  reflexivity.
Defined.

(** ** Validation *)

(** X16: [validate] accepts a list of top-level objects exactly when
    every one of them is a [Form] that is not at once an import and no
    function definition, and an accepted list comes with the empty
    message. *)
Theorem validate_accepts_exactly `{Externals} (objects : list obj) :
  fst (validate objects) = forallb passes_validation objects
  /\ (fst (validate objects) = true -> snd (validate objects) = "").
Proof.
  induction objects as [|o rest [IH1 IH2]]; [split; reflexivity|].
  unfold passes_validation in *. cbn [validate forallb].
  destruct o as [v|elements]; [split; [reflexivity|discriminate]|].
  cbn [is_form andb].
  destruct (negb (is_function_def (Form elements)) && is_import (Form elements));
    [split; [reflexivity|discriminate]|].
  cbn [negb andb]. split; assumption.
Qed.

Lemma validate_accepts_exactly_witness :
  snd (validate [Form [atom "fun"; atom "f"; Form []; atom "1"];
                 Form [atom "print"; atom "1"]]) = "".
Proof.
  apply (proj2 (validate_accepts_exactly
                  [Form [atom "fun"; atom "f"; Form []; atom "1"];
                   Form [atom "print"; atom "1"]])).
  reflexivity.
Defined.

(** X17: [validate] stops at the first object that it does not accept
    and its message shows that object: "Got unexpected object at
    root-level" for an [Atom], "Expected only function definitions and
    imports at root-level but got" for a [Form]; what follows the object
    plays no part. *)
Theorem validate_reports_first_offender `{Externals} (pre post : list obj)
    (o : obj) :
  forallb passes_validation pre = true ->
  passes_validation o = false ->
  validate (pre ++ o :: post)%list
  = (false,
     (if is_form o
      then "Expected only function definitions and imports at root-level but got: "
      else "Got unexpected object at root-level: ") ++ obj_str o).
Proof.
  intros Hpre Ho. induction pre as [|a pre IH].
  - unfold passes_validation in Ho. cbn [app validate].
    destruct o as [v|elements]; [reflexivity|].
    cbn [is_form andb] in *.
    destruct (negb (is_function_def (Form elements)) && is_import (Form elements));
      [reflexivity|discriminate].
  - cbn [forallb] in Hpre. apply andb_true_iff in Hpre as [Ha Hpre].
    unfold passes_validation in Ha. cbn [app validate].
    destruct a as [v|elements]; [discriminate|].
    cbn [is_form andb] in Ha.
    destruct (negb (is_function_def (Form elements)) && is_import (Form elements));
      [discriminate|].
    exact (IH Hpre).
Qed.

Lemma validate_reports_first_offender_witness :
  validate [Form [atom "print"; atom "1"]; atom "x"; atom "y"]
  = (false, "Got unexpected object at root-level: x").
Proof.
  exact (validate_reports_first_offender
           [Form [atom "print"; atom "1"]] [atom "y"] (atom "x")
           eq_refl eq_refl).
Defined.

(** ** Whole programs *)

Lemma compile_program_cases `{Externals} (child : ast_node)
    (children : list ast_node) (ext_funcs : list (value * Function))
    (is_repl : bool) :
  compile_program (child :: children) ext_funcs is_repl
  = let objects := map to_object (child :: children) in
    if negb (fst (validate objects)) then
      Val (false, snd (validate objects), [])
    else
      match local_functions objects [] with
      | Exc x => Exc x
      | Val locals =>
          let namespace :=
            fold_left (fun d kv => dict_set (fst kv) (snd kv) d) locals ext_funcs in
          if negb is_repl && negb (dict_has (VStr "main") namespace) then
            Val (false, "Function 'main' is not defined!", [])
          else
            match convert_to_output is_repl namespace objects with
            | Exc x => Exc x
            | Val output => Val (true, output, namespace)
            end
      end.
Proof.
  unfold compile_program.
  destruct (validate (map to_object (child :: children))) as [b m].
  reflexivity.
Qed.

(** X18: outside the interactive mode, a program that compiles has a
    function under the key [main] in the namespace it returns, the empty
    tree being the one exception. *)
Theorem compile_program_requires_main `{Externals}
    (children : list ast_node) (ext_funcs : list (value * Function))
    (output : string) (namespace : list (value * Function)) :
  compile_program children ext_funcs false = Val (true, output, namespace) ->
  children = [] \/ dict_has (VStr "main") namespace = true.
Proof.
  destruct children as [|child children]; [left; reflexivity|].
  rewrite compile_program_cases. cbv zeta. intros Hc. right.
  destruct (negb (fst (validate _))); [discriminate|].
  destruct (local_functions _ []) as [locals|x]; [|discriminate].
  cbn [negb andb] in Hc.
  destruct (dict_has (VStr "main") _) eqn:Hmain; [|discriminate].
  cbn [negb] in Hc.
  destruct (convert_to_output _ _ _); [|discriminate].
  injection Hc as _ <-. exact Hmain.
Qed.

Lemma compile_program_requires_main_witness :
  [Form [atom "fun"; atom "main"; Form []; Form [atom "print"; atom "1"]]] = []
  \/ dict_has (VStr "main")
       [(VStr "main", mkFunction "main" [] [Form [atom "print"; atom "1"]])]
     = true.
Proof.
  refine (compile_program_requires_main
            [Form [atom "fun"; atom "main"; Form [];
                   Form [atom "print"; atom "1"]]] [] _ _ _).
  vm_compute. reflexivity.
Defined.

(** X19: the text of every compiled program, the empty tree apart, starts
    with the line [from lisp_core import *] and an empty line. *)
Theorem compile_program_starts_with_prelude `{Externals}
    (children : list ast_node) (ext_funcs : list (value * Function))
    (is_repl : bool) (output : string) (namespace : list (value * Function)) :
  children <> [] ->
  compile_program children ext_funcs is_repl = Val (true, output, namespace) ->
  exists rest, output = prelude ++ rest.
Proof.
  intros Hne. destruct children as [|child children]; [contradiction|].
  rewrite compile_program_cases. cbv zeta. intros Hc.
  destruct (negb (fst (validate _))); [discriminate|].
  destruct (local_functions _ []) as [locals|x]; [|discriminate].
  destruct (negb is_repl && negb (dict_has (VStr "main") _)); [discriminate|].
  unfold convert_to_output in Hc.
  destruct (compile_functions _) as [functions|x]; [|discriminate].
  destruct is_repl.
  - destruct (compile_each _ _) as [forms|x]; [|discriminate].
    injection Hc as <- _.
    exists (functions ++ join newline forms ++ newline ++ newline).
    reflexivity.
  - injection Hc as <- _. exists functions. reflexivity.
Qed.

Lemma compile_program_starts_with_prelude_witness :
  exists rest,
    "from lisp_core import *" ++ newline ++ newline
    ++ "if __name__ == '__main__':" ++ newline
    ++ "    print(1)" ++ newline ++ newline ++ newline
    = prelude ++ rest.
Proof.
  refine (compile_program_starts_with_prelude
            [Form [atom "fun"; atom "main"; Form [];
                   Form [atom "print"; atom "1"]]] [] false _ _ _ _).
  - discriminate.
  - vm_compute. reflexivity.
Defined.

(** X20: when [compile_program] returns a failure, the namespace it
    returns is empty and the message is either the message of
    [validate] or, outside the interactive mode only, "Function 'main'
    is not defined!". *)
Theorem compile_program_failure `{Externals}
    (children : list ast_node) (ext_funcs : list (value * Function))
    (is_repl : bool) (msg : string) (namespace : list (value * Function)) :
  compile_program children ext_funcs is_repl = Val (false, msg, namespace) ->
  namespace = []
  /\ (validate (map to_object children) = (false, msg)
      \/ (is_repl = false /\ msg = "Function 'main' is not defined!")).
Proof.
  destruct children as [|child children]; [discriminate|].
  rewrite compile_program_cases. cbv zeta.
  destruct (validate (map to_object (child :: children))) as [b m].
  cbn [fst snd]. destruct b; cbn [negb].
  - destruct (local_functions _ []) as [locals|x]; [|discriminate].
    destruct is_repl; cbn [negb andb].
    + destruct (convert_to_output _ _ _); discriminate.
    + destruct (dict_has (VStr "main") _); cbn [negb].
      * destruct (convert_to_output _ _ _); discriminate.
      * intros [= <- <-]. split; [reflexivity|right; split; reflexivity].
  - intros [= <- <-]. split; [reflexivity|left; reflexivity].
Qed.

Lemma compile_program_failure_witness :
  [] = ([] : list (value * Function))
  /\ (validate (map (@to_object sample_externals)
                     [Form [atom "print"; atom "1"]])
      = (false, "Function 'main' is not defined!")
      \/ (false = false
          /\ "Function 'main' is not defined!" = "Function 'main' is not defined!")).
Proof.
  apply (compile_program_failure (H := sample_externals)
           [Form [atom "print"; atom "1"]] [] false).
  reflexivity.
Defined.

(** ** The namespace of a compiled program *)

Lemma dict_get_set_eq {V : Type} (k : value) (v : V) (d : list (value * V)) :
  dict_get k (dict_set k v d) = Some v.
Proof.
  induction d as [|[k' v'] d IH]; simpl.
  - rewrite decide_True by reflexivity. reflexivity.
  - destruct (decide (k' = k)) as [Heq|Hne]; simpl.
    + rewrite decide_True by reflexivity. reflexivity.
    + rewrite decide_False by exact Hne. exact IH.
Qed.

Lemma dict_get_set_ne {V : Type} (k k' : value) (v : V)
    (d : list (value * V)) :
  k' <> k -> dict_get k (dict_set k' v d) = dict_get k d.
Proof.
  intros Hne. induction d as [|[k0 v0] d IH]; simpl.
  - rewrite decide_False by exact Hne. reflexivity.
  - destruct (decide (k0 = k')) as [Heq|Hne0]; simpl.
    + subst k0. rewrite !decide_False by exact Hne. reflexivity.
    + destruct (decide (k0 = k)); [reflexivity|exact IH].
Qed.

Lemma unique_keys_set {V : Type} (k : value) (v : V) (d : list (value * V)) :
  unique_keys d -> unique_keys (dict_set k v d).
Proof.
  induction d as [|[k' v'] d IH]; simpl; [auto|].
  intros [Hk' Hd]. destruct (decide (k' = k)) as [Heq|Hne]; simpl.
  - subst k'. auto.
  - split; [|exact (IH Hd)].
    rewrite dict_get_set_ne by congruence. exact Hk'.
Qed.

Lemma local_functions_unique_keys `{Externals} (objects : list obj) :
  forall acc d : list (value * Function),
    unique_keys acc -> local_functions objects acc = Val d -> unique_keys d.
Proof.
  induction objects as [|form rest IH]; intros acc d Hacc Hd.
  - injection Hd as <-. exact Hacc.
  - cbn [local_functions] in Hd.
    destruct (is_function_def form); [|exact (IH acc d Hacc Hd)].
    destruct form as [v|[|h [|[key|sub] tl]]]; try discriminate.
    destruct (to_function _) as [f|x]; [|discriminate].
    exact (IH _ d (unique_keys_set key f acc Hacc) Hd).
Qed.

(** Setting the entries of [locals] one after the other into [ext]. *)
Lemma dict_get_merge {V : Type} (k : value) (locals : list (value * V)) :
  unique_keys locals ->
  forall ext : list (value * V),
    dict_get k (fold_left (fun d kv => dict_set (fst kv) (snd kv) d) locals ext)
    = match dict_get k locals with
      | Some v => Some v
      | None => dict_get k ext
      end.
Proof.
  induction locals as [|[k1 v1] locals IH]; intros Huniq ext; [reflexivity|].
  destruct Huniq as [Hk1 Huniq]. cbn [fold_left fst snd dict_get].
  rewrite (IH Huniq).
  destruct (decide (k1 = k)) as [Heq|Hne].
  - subst k1. rewrite Hk1. apply dict_get_set_eq.
  - destruct (dict_get k locals); [reflexivity|].
    apply dict_get_set_ne. exact Hne.
Qed.

(** X21: in the namespace of a compiled program, the empty tree apart, a
    name defined by the program is bound to the program's function, even
    when an external function has the same name, and every other name
    keeps the external function it had. *)
Theorem compile_program_namespace `{Externals}
    (children : list ast_node) (ext_funcs locals : list (value * Function))
    (is_repl : bool) (output : string) (namespace : list (value * Function)) :
  children <> [] ->
  local_functions (map to_object children) [] = Val locals ->
  compile_program children ext_funcs is_repl = Val (true, output, namespace) ->
  forall k : value,
    dict_get k namespace
    = match dict_get k locals with
      | Some f => Some f
      | None => dict_get k ext_funcs
      end.
Proof.
  intros Hne Hlocals. destruct children as [|child children]; [contradiction|].
  rewrite compile_program_cases. cbv zeta. rewrite Hlocals. intros Hc k.
  destruct (negb (fst (validate _))); [discriminate|].
  destruct (negb is_repl && negb (dict_has (VStr "main") _)); [discriminate|].
  destruct (convert_to_output _ _ _); [|discriminate].
  injection Hc as _ <-.
  apply dict_get_merge.
  exact (local_functions_unique_keys _ [] locals I Hlocals).
Qed.

Lemma compile_program_namespace_witness :
  dict_get (VStr "main")
    [(VStr "main", mkFunction "main" [] [Form [atom "print"; atom "1"]]);
     (VStr "lib", mkFunction "lib" [] [atom "0"])]
  = match dict_get (VStr "main")
            [(VStr "main",
              mkFunction "main" [] [Form [atom "print"; atom "1"]])] with
    | Some f => Some f
    | None =>
        dict_get (VStr "main")
          [(VStr "main", mkFunction "main" [] [atom "2"]);
           (VStr "lib", mkFunction "lib" [] [atom "0"])]
    end.
Proof.
  refine (compile_program_namespace (H := sample_externals)
            [Form [atom "fun"; atom "main"; Form [];
                   Form [atom "print"; atom "1"]]]
            [(VStr "main", mkFunction "main" [] [atom "2"]);
             (VStr "lib", mkFunction "lib" [] [atom "0"])]
            [(VStr "main",
              mkFunction "main" [] [Form [atom "print"; atom "1"]])]
            false _ _ _ _ _ (VStr "main")).
  - discriminate.
  - reflexivity.
  - vm_compute. reflexivity.
Defined.

(** * The type checker next to the code generator, and number texts *)

(** X22: the type checker looks at the arguments it needs and at no
    other: arguments after the first of [first] and [rest], after the
    second of [++] and after the third of [if] do not change what it
    returns, although the code generator refuses such calls of [first],
    [rest] and [if]. *)
Theorem infer_ignores_surplus_arguments `{Externals}
    (namespace : gmap string ty) (a b c : obj) (more : list obj) :
  (namespace !! "first" = None ->
   infer_type (Form (atom "first" :: a :: more)) namespace
   = infer_type (Form [atom "first"; a]) namespace)
  /\ (namespace !! "rest" = None ->
      infer_type (Form (atom "rest" :: a :: more)) namespace
      = infer_type (Form [atom "rest"; a]) namespace)
  /\ (namespace !! "++" = None ->
      infer_type (Form (atom "++" :: a :: b :: more)) namespace
      = infer_type (Form [atom "++"; a; b]) namespace)
  /\ (namespace !! "if" = None ->
      infer_type (Form (atom "if" :: a :: b :: c :: more)) namespace
      = infer_type (Form [atom "if"; a; b; c]) namespace).
Proof.
  repeat split; intros Hns; rewrite !infer_unbound_form by exact Hns;
    reflexivity.
Qed.

Lemma infer_ignores_surplus_arguments_witness :
  infer_type (Form [atom "first"; Form [atom "list"; atom "1"]; atom "x"])
             no_bindings
  = infer_type (Form [atom "first"; Form [atom "list"; atom "1"]]) no_bindings.
Proof.
  apply (proj1 (infer_ignores_surplus_arguments no_bindings
                  (Form [atom "list"; atom "1"]) (atom "0") (atom "0")
                  [atom "x"])).
  reflexivity.
Defined.

(** X23: a [list] form of two arguments that infer to types gives the
    same verdict when the two arguments are exchanged: the same type, or
    a failure both ways. *)
Theorem infer_list_two_arguments_exchange `{Externals}
    (namespace : gmap string ty) (a b : obj) (ta tb : ty) :
  namespace !! "list" = None ->
  infer_type a namespace = Ok ta ->
  infer_type b namespace = Ok tb ->
  match infer_type (Form [atom "list"; a; b]) namespace,
        infer_type (Form [atom "list"; b; a]) namespace with
  | Ok t, Ok t' => t = t'
  | Fail _, Fail _ => True
  | _, _ => False
  end.
Proof.
  intros Hns Ha Hb. rewrite !infer_list_form by exact Hns.
  rewrite Ha, Hb. cbn [list_loop]. rewrite Ha, Hb.
  rewrite !infer_element_types_lists_elementwise_aux.
  pose proof (infer_element_types_sym_aux ta tb) as Hsym.
  destruct (infer_element_types ta tb) as [u|m],
           (infer_element_types tb ta) as [u'|m']; simpl in Hsym;
    try contradiction; cbn [element_of]; congruence || exact I.
Qed.

Lemma infer_list_two_arguments_exchange_witness :
  match infer_type (Form [atom "list"; Form [atom "list"; atom "1"];
                          Form [atom "list"]]) no_bindings,
        infer_type (Form [atom "list"; Form [atom "list"];
                          Form [atom "list"; atom "1"]]) no_bindings with
  | Ok t, Ok t' => t = t'
  | Fail _, Fail _ => True
  | _, _ => False
  end.
Proof.
  apply (infer_list_two_arguments_exchange no_bindings
           (Form [atom "list"; atom "1"]) (Form [atom "list"])
           (ListType TNumber) EmptyList); reflexivity.
Defined.

Lemma is_sign_not_underscore (c : ascii) :
  is_sign c = true -> is_underscore c = false.
Proof.
  unfold is_sign, is_underscore. intros Hc.
  apply orb_true_iff in Hc as [Hc|Hc]; apply Ascii.eqb_eq in Hc; subst c;
    reflexivity.
Qed.

Lemma is_digit_not_sign (d : ascii) : is_digit d = true -> is_sign d = false.
Proof.
  intros Hd. unfold is_sign.
  destruct (Ascii.eqb d "+") eqn:Hplus;
    [apply Ascii.eqb_eq in Hplus; subst d; discriminate|].
  destruct (Ascii.eqb d "-") eqn:Hminus;
    [apply Ascii.eqb_eq in Hminus; subst d; discriminate|].
  reflexivity.
Qed.

Lemma drop_underscores_after_sign (c : ascii) (r t : list ascii) :
  is_sign c = true ->
  drop_underscores None r = Some t ->
  drop_underscores (Some c) r = Some t.
Proof.
  intros Hc Hr. pose proof (is_sign_not_underscore c Hc) as Hu.
  destruct r as [|d r']; cbn [drop_underscores] in *.
  - rewrite Hu. exact Hr.
  - destruct (is_underscore d); [discriminate|].
    rewrite Hu. exact Hr.
Qed.

Lemma int_text_is_float_text (s : string) :
  int_parses s = true -> float_parses s = true.
Proof.
  unfold int_parses, float_parses.
  generalize (strip (list_ascii_of_string s)) as l. intros l Hint.
  destruct (drop_underscores None (skip_sign l)) as [t|] eqn:Hdrop;
    [|discriminate].
  destruct (span_digits t) as [n rest] eqn:Hspan.
  apply andb_true_iff in Hint as [Hn Hrest].
  destruct rest; [|discriminate]. apply Nat.ltb_lt in Hn.
  assert (Hdec : is_decimal_float t = true).
  { unfold is_decimal_float. rewrite Hspan. cbn [is_exponent andb].
    rewrite Nat.add_0_r. apply andb_true_iff. split; [|reflexivity].
    apply Nat.ltb_lt. exact Hn. }
  assert (Hskip : skip_sign t = t).
  { destruct t as [|d t']; [reflexivity|]. cbn [span_digits] in Hspan.
    cbn [skip_sign]. destruct (is_digit d) eqn:Hd.
    - rewrite (is_digit_not_sign d Hd). reflexivity.
    - discriminate. }
  destruct l as [|c r].
  - cbn [skip_sign drop_underscores] in Hdrop. injection Hdrop as <-.
    cbn [span_digits] in Hspan. injection Hspan as <-. lia.
  - cbn [skip_sign] in Hdrop. destruct (is_sign c) eqn:Hc.
    + cbn [drop_underscores]. rewrite (is_sign_not_underscore c Hc).
      rewrite (drop_underscores_after_sign c r t Hc Hdrop).
      cbn [option_map skip_sign]. rewrite Hc, Hdec. apply orb_true_r.
    + rewrite Hdrop. cbv zeta. rewrite Hskip, Hdec. apply orb_true_r.
Qed.

(** X24: on ASCII text every text that [int] reads [float] reads as
    well, so for an atom the attempt with [int] that follows a failed
    [float] never succeeds: an ASCII text that is no literal and no bound
    name and that [float] rejects is the error
    "Cannot infer type of '<text>'". *)
Theorem infer_atom_float_decides `{Externals} (s : string)
    (namespace : gmap string ty) :
  is_ascii s = true ->
  ~ quoted s -> ~ bool_word s ->
  namespace !! s = None ->
  float_parses s = false ->
  infer_type (atom s) namespace
  = Fail (PMsg ("Cannot infer type of '" ++ s ++ "'")).
Proof.
  intros _ Hq Hw Hn Hf. cbn [infer_type atom]. unfold infer_atom.
  destruct (is_string_literal s) eqn:Hs;
    [apply is_string_literal_spec in Hs; contradiction|].
  destruct (is_bool_literal s) eqn:Hb;
    [apply is_bool_literal_spec in Hb; contradiction|].
  rewrite Hn, Hf.
  destruct (int_parses s) eqn:Hi; [|reflexivity].
  rewrite (int_text_is_float_text s Hi) in Hf. discriminate.
Qed.

Lemma infer_atom_float_decides_witness :
  infer_type (atom "1 2") no_bindings
  = Fail (PMsg "Cannot infer type of '1 2'").
Proof.
  apply (infer_atom_float_decides "1 2" no_bindings);
    try reflexivity.
  - intros [Hq|[body Hq]]; discriminate.
  - intros [Hw|Hw]; discriminate.
Defined.
